(** * convert_yolo_model.py: the YOLO -> TensorFlow Lite conversion pipeline

    A shallow embedding of [scripts/convert_yolo_model.py].  The script is an
    orchestration of external calls, so the embedding is a small state and
    exception monad over

    - a file system (pathlib / os.path / shutil, modelled after the Python
      documentation, POSIX flavour, no symbolic links, no [..] resolution),
    - the captured standard output,
    - the trace of calls that leave the script (instrumentation only),

    and is parameterised by the behaviour of the three third-party
    collaborators (ultralytics, the tf2onnx command line, tensorflow).

    Conventions of the model:
    - [print] appends a line to the captured output and never fails;
    - an external call either returns a value or raises an instance of
      Python's [Exception]; [SystemExit] is raised by [sys.exit] only, and is
      not an [Exception], so [except Exception] lets it through;
    - [main] starts from the parsed command line ([args]): the exits of
      [parser.parse_args()] itself (a usage error, [--help]) come before it
      and are not modelled;
    - a file has one path: no hard links, and a relative and an absolute
      spelling are two paths. *)

From Stdlib Require Import ZArith Ascii String List Lia.
From stdpp Require Import base decidable countable gmap strings list pretty.

Local Open Scope string_scope.
Local Open Scope Z_scope.

(** ** Text helpers *)

Definition nl : string := String "010"%char EmptyString.

Fixpoint str_repeat (s : string) (n : nat) : string :=
  match n with
  | O => EmptyString
  | S k => s ++ str_repeat s k
  end.

Fixpoint str_join (sep : string) (l : list string) : string :=
  match l with
  | [] => EmptyString
  | [x] => x
  | x :: rest => x ++ sep ++ str_join sep rest
  end.

(** [s.split(c)]: the pieces of [s] between the occurrences of [c]. *)
Fixpoint split_on (c : ascii) (s : string) : list string :=
  match s with
  | EmptyString => [EmptyString]
  | String a s' =>
      if Ascii.eqb a c then EmptyString :: split_on c s'
      else match split_on c s' with
           | [] => [String a EmptyString]
           | h :: t => String a h :: t
           end
  end.

Definition str_nonempty (s : string) : bool :=
  match s with EmptyString => false | String _ _ => true end.

Definition starts_with (p s : string) : bool := String.prefix p s.

(** ** Python exceptions *)

(** An instance of [Exception]: its class and [str(e)]. *)
Record Exception := mkExc { exc_class : string; exc_msg : string }.

(** What can propagate: an [Exception], or the [SystemExit] of [sys.exit]. *)
Inductive PyExc :=
| PyException (e : Exception)
| SystemExit (code : Z).

(** What an external call does: returns, or raises an [Exception]. *)
Inductive Outcome (A : Type) :=
| Ok (a : A)
| Err (e : Exception).
Arguments Ok {A} a.
Arguments Err {A} e.

(** ** pathlib.PurePosixPath *)

Record PurePath := mkPath { anchor : string; parts : list string }.

#[global] Instance PurePath_eq_dec : EqDecision PurePath.
Proof. solve_decision. Defined.

#[global] Instance PurePath_countable : Countable PurePath.
Proof.
  refine (inj_countable' (fun p => (anchor p, parts p))
                         (fun '(a, l) => mkPath a l) _).
  intros []; reflexivity.
Defined.

Definition is_component (c : string) : bool :=
  str_nonempty c && negb (String.eqb c ".").

(** [Path(s)]: exactly two leading slashes are kept as the root [//], any
    other number collapses to [/]; empty and [.] components are dropped. *)
Definition Path (s : string) : PurePath :=
  {| anchor := if starts_with "//" s && negb (starts_with "///" s) then "//"
               else if starts_with "/" s then "/" else EmptyString;
     parts := filter (fun c => is_component c = true) (split_on "/"%char s) |}.

(** [p / s] *)
Definition joinpath (p : PurePath) (s : string) : PurePath :=
  let q := Path s in
  if str_nonempty (anchor q) then q
  else {| anchor := anchor p; parts := parts p ++ parts q |}.

(** [str(p)] *)
Definition path_str (p : PurePath) : string :=
  match anchor p, parts p with
  | EmptyString, [] => "."
  | a, l => a ++ str_join "/" l
  end.

(** [p.parent] *)
Definition parent (p : PurePath) : PurePath :=
  {| anchor := anchor p; parts := removelast (parts p) |}.

(** [p.name] *)
Definition path_name (p : PurePath) : string := List.last (parts p) EmptyString.

(** ** The file system *)

Inductive node :=
| File (content : string)
| Dir.

Record FS := mkFS { nodes : gmap PurePath node; read_only : bool }.

(** The roots ([/], [//] and the working directory) always exist. *)
Definition fs_lookup (fs : FS) (p : PurePath) : option node :=
  match parts p with
  | [] => Some Dir
  | _ => nodes fs !! p
  end.

Definition fs_insert (p : PurePath) (n : node) (fs : FS) : FS :=
  {| nodes := <[p := n]> (nodes fs); read_only := read_only fs |}.

Definition is_dir (fs : FS) (p : PurePath) : bool :=
  match fs_lookup fs p with Some Dir => true | _ => false end.

(** The [OSError]s of the model: [errno] and the offending path. *)
Inductive errno := ENOENT | EEXIST | ENOTDIR | EISDIR | EROFS.

#[global] Instance errno_eq_dec : EqDecision errno.
Proof. solve_decision. Defined.

Definition OSError (e : errno) (p : string) : Exception :=
  match e with
  | ENOENT => mkExc "FileNotFoundError" ("[Errno 2] No such file or directory: '" ++ p ++ "'")
  | EEXIST => mkExc "FileExistsError" ("[Errno 17] File exists: '" ++ p ++ "'")
  | ENOTDIR => mkExc "NotADirectoryError" ("[Errno 20] Not a directory: '" ++ p ++ "'")
  | EISDIR => mkExc "IsADirectoryError" ("[Errno 21] Is a directory: '" ++ p ++ "'")
  | EROFS => mkExc "OSError" ("[Errno 30] Read-only file system: '" ++ p ++ "'")
  end.

Definition SameFileError (a b : string) : Exception :=
  mkExc "SameFileError" ("'" ++ a ++ "' and '" ++ b ++ "' are the same file").

(** [os.stat] on a path given as text: the empty text names nothing. *)
Definition fs_stat (s : string) (fs : FS) : option node :=
  match s with
  | EmptyString => None
  | _ => fs_lookup fs (Path s)
  end.

(** [os.path.exists(s)] *)
Definition os_path_exists (s : string) (fs : FS) : bool :=
  match fs_stat s fs with Some _ => true | None => false end.

(** [os.path.getsize(s)]; the size of a directory entry is the usual 4096. *)
Definition os_path_getsize (s : string) (fs : FS) : Outcome Z :=
  match fs_stat s fs with
  | Some (File c) => Ok (Z.of_nat (String.length c))
  | Some Dir => Ok 4096
  | None => Err (OSError ENOENT s)
  end.

(** [os.path.basename(s)]: what follows the last slash. *)
Definition os_path_basename (s : string) : string :=
  List.last (split_on "/"%char s) EmptyString.

(** [s.rstrip('/')] *)
Fixpoint rstrip_slash (s : string) : string :=
  match s with
  | EmptyString => EmptyString
  | String a s' =>
      match rstrip_slash s' with
      | EmptyString => if Ascii.eqb a "/"%char then EmptyString else String a EmptyString
      | r => String a r
      end
  end.

(** [os.path.dirname(s)]: what precedes the last slash, slash included, with
    the trailing slashes stripped unless nothing else is left. *)
Definition os_path_dirname (s : string) : string :=
  let pieces := removelast (split_on "/"%char s) in
  let head := match pieces with
              | [] => EmptyString
              | _ => str_join "/" pieces ++ "/"
              end in
  match rstrip_slash head with
  | EmptyString => head
  | r => r
  end.

(** [os.mkdir(p)]: [None] on success. *)
Definition os_mkdir (p : PurePath) (fs : FS) : option errno * FS :=
  match fs_lookup fs p with
  | Some _ => (Some EEXIST, fs)
  | None =>
      match fs_lookup fs (parent p) with
      | None => (Some ENOENT, fs)
      | Some (File _) => (Some ENOTDIR, fs)
      | Some Dir =>
          if read_only fs then (Some EROFS, fs)
          else (None, fs_insert p Dir fs)
      end
  end.

(** [Path.mkdir(parents=False, exist_ok=exist_ok)]: a missing parent is an
    error; any other [OSError] is forgiven when [exist_ok] is set and the
    path is a directory. *)
Definition mkdir_flat (exist_ok : bool) (p : PurePath) (fs : FS) : option errno * FS :=
  match os_mkdir p fs with
  | (None, fs') => (None, fs')
  | (Some ENOENT, fs') => (Some ENOENT, fs')
  | (Some e, fs') => if exist_ok && is_dir fs' p then (None, fs') else (Some e, fs')
  end.

(** [Path.mkdir(parents=True, exist_ok=exist_ok)] on the path with anchor [a]
    and components [rev rp]: on a missing parent, the parent is made first
    (with [parents=True, exist_ok=True]) and the directory itself after it;
    a path that is its own parent re-raises. *)
Fixpoint mkdir_parents (exist_ok : bool) (a : string) (rp : list string) (fs : FS)
  : option errno * FS :=
  let self := mkPath a (rev rp) in
  match os_mkdir self fs with
  | (None, fs') => (None, fs')
  | (Some ENOENT, fs') =>
      match rp with
      | [] => (Some ENOENT, fs')
      | _ :: rp' =>
          match mkdir_parents true a rp' fs' with
          | (Some e, fs'') => (Some e, fs'')
          | (None, fs'') => mkdir_flat exist_ok self fs''
          end
      end
  | (Some e, fs') => if exist_ok && is_dir fs' self then (None, fs') else (Some e, fs')
  end.

(** [p.mkdir(parents=parents, exist_ok=exist_ok)] *)
Definition path_mkdir (parents exist_ok : bool) (p : PurePath) (fs : FS)
  : Outcome unit * FS :=
  let '(r, fs') := if parents then mkdir_parents exist_ok (anchor p) (rev (parts p)) fs
                   else mkdir_flat exist_ok p fs in
  match r with
  | None => (Ok tt, fs')
  | Some e => (Err (OSError e (path_str p)), fs')
  end.

(** [shutil.copy(src, dst)]: a directory [dst] stands for the file of the
    same base name inside it; copying a file onto itself is refused; the
    source is opened for reading, then the destination for writing (created
    or truncated), and the content is written.  Returns the path written. *)
Definition shutil_copy (src : string) (dst : PurePath) (fs : FS)
  : Outcome PurePath * FS :=
  let dst' := if is_dir fs dst then joinpath dst (os_path_basename src) else dst in
  let same := match fs_stat src fs, fs_lookup fs dst' with
              | Some _, Some _ => bool_decide (Path src = dst')
              | _, _ => false
              end in
  if same then (Err (SameFileError src (path_str dst')), fs)
  else match fs_stat src fs with
       | None => (Err (OSError ENOENT src), fs)
       | Some Dir => (Err (OSError EISDIR src), fs)
       | Some (File c) =>
           match fs_lookup fs dst' with
           | Some Dir => (Err (OSError EISDIR (path_str dst')), fs)
           | Some (File _) =>
               if read_only fs then (Err (OSError EROFS (path_str dst')), fs)
               else (Ok dst', fs_insert dst' (File c) fs)
           | None =>
               match fs_lookup fs (parent dst') with
               | None => (Err (OSError ENOENT (path_str dst')), fs)
               | Some (File _) => (Err (OSError ENOTDIR (path_str dst')), fs)
               | Some Dir =>
                   if read_only fs then (Err (OSError EROFS (path_str dst')), fs)
                   else (Ok dst', fs_insert dst' (File c) fs)
               end
           end
       end.

(** ** The state of a run and the monad of the script *)

(** The descriptor of a tensor: the dict of [get_input_details()], each value
    by its printed form. *)
Abbreviation details := (gmap string string).

(** The calls that leave the script, as they are made. *)
Inductive Event :=
| EvExists (p : string)
| EvGetsize (p : string)
| EvImport (module : string)
| EvYOLO (weights : string)
| EvExport (format : string) (imgsz : Z)
| EvSubprocess (cmd : list string)
| EvInterpreter (model_path : string)
| EvAllocateTensors
| EvGetInputDetails
| EvGetOutputDetails
| EvMkdir (p : PurePath) (parents exist_ok : bool)
| EvCopy (src : string) (dst : PurePath).

#[global] Instance Event_eq_dec : EqDecision Event.
Proof. solve_decision. Defined.

Record State := mkState {
  st_fs : FS;
  st_stdout : list string;
  st_trace : list Event
}.

Inductive Res (A : Type) :=
| Ret (a : A)
| Raise (e : PyExc).
Arguments Ret {A} a.
Arguments Raise {A} e.

Definition M (A : Type) : Type := State -> Res A * State.

Definition ret {A} (a : A) : M A := fun st => (Ret a, st).

Definition bind {A B} (m : M A) (k : A -> M B) : M B := fun st =>
  match m st with
  | (Ret a, st') => k a st'
  | (Raise e, st') => (Raise e, st')
  end.

Declare Scope py_scope.
Delimit Scope py_scope with py.
Notation "x <- c ;; k" := (bind c (fun x => k))
  (at level 100, c at next level, right associativity) : py_scope.
Notation "c ;; k" := (bind c (fun _ => k))
  (at level 100, right associativity) : py_scope.

(** [raise e] *)
Definition raise {A} (e : PyExc) : M A := fun st => (Raise e, st).

(** [sys.exit(code)] *)
Definition sys_exit {A} (code : Z) : M A := raise (SystemExit code).

(** [try: body except Exception as e: handler(e)]: only an [Exception] is
    caught; [SystemExit] propagates. *)
Definition try_except {A} (body : M A) (handler : Exception -> M A) : M A := fun st =>
  match body st with
  | (Raise (PyException e), st') => handler e st'
  | r => r
  end.

(** [print(line)] *)
Definition print (line : string) : M unit := fun st =>
  (Ret tt, {| st_fs := st_fs st;
              st_stdout := (st_stdout st ++ [line])%list;
              st_trace := st_trace st |}).

Definition log_event (ev : Event) (st : State) : State :=
  {| st_fs := st_fs st;
     st_stdout := st_stdout st;
     st_trace := (st_trace st ++ [ev])%list |}.

Definition lift_outcome {A} (o : Outcome A) : Res A :=
  match o with
  | Ok a => Ret a
  | Err e => Raise (PyException e)
  end.

(** A call that may change the file system. *)
Definition call {A} (ev : Event) (f : FS -> Outcome A * FS) : M A := fun st =>
  let '(o, fs') := f (st_fs st) in
  (lift_outcome o, log_event ev {| st_fs := fs'; st_stdout := st_stdout st;
                                   st_trace := st_trace st |}).

(** A call that only reads the file system. *)
Definition query {A} (ev : Event) (f : FS -> A) : M A := fun st =>
  (Ret (f (st_fs st)), log_event ev st).

(** A call on an object already in hand. *)
Definition invoke {A} (ev : Event) (o : Outcome A) : M A := fun st =>
  (lift_outcome o, log_event ev st).

(** ** The third-party collaborators *)

(** [subprocess.CompletedProcess] *)
Record CompletedProcess := mkCompleted {
  returncode : Z;
  stdout : string;
  stderr : string
}.

(** A loaded [ultralytics.YOLO] model: [export(format, imgsz)] writes the
    exported graph somewhere and returns its path. *)
Record YoloModel := mkYolo {
  yolo_export : string -> Z -> FS -> Outcome string * FS
}.

(** A [tf.lite.Interpreter] object. *)
Record Interpreter := mkInterpreter {
  allocate_tensors : Outcome unit;
  get_input_details : Outcome (list details);
  get_output_details : Outcome (list details)
}.

(** The environment of a run: each import either fails or gives the entry
    point the script uses. *)
Record Libs := mkLibs {
  (** [from ultralytics import YOLO], then [YOLO(weights_path)] *)
  ultralytics_YOLO : Outcome (string -> FS -> Outcome YoloModel * FS);
  (** [subprocess.run(cmd, capture_output=True, text=True)] *)
  subprocess_run : list string -> FS -> Outcome CompletedProcess * FS;
  (** [import tensorflow as tf], then [tf.lite.Interpreter(model_path=...)] *)
  tf_lite_Interpreter : Outcome (string -> FS -> Outcome Interpreter * FS)
}.

(** ** Formatting *)

(** [f"{size / (1024 * 1024):.2f}"]: the quotient is exact in binary floating
    point for any realistic size, and the two-decimal rendering rounds it to
    the nearest hundredth, ties to even. *)
Definition hundredths_mb (size : Z) : Z :=
  let q := (size * 100) / 1048576 in
  let r := (size * 100) mod 1048576 in
  if 524288 <? r then q + 1
  else if (r =? 524288) && Z.odd q then q + 1
  else q.

Definition two_digits (n : Z) : string :=
  if n <? 10 then "0" ++ pretty n else pretty n.

Definition format_mb (size : Z) : string :=
  let h := hundredths_mb size in
  pretty (h / 100) ++ "." ++ two_digits (h mod 100).

(** [l[i]] *)
Definition list_index {A} (l : list A) (i : nat) : M A :=
  match l !! i with
  | Some x => ret x
  | None => raise (PyException (mkExc "IndexError" "list index out of range"))
  end.

(** [d[k]] *)
Definition dict_get (d : details) (k : string) : M string :=
  match d !! k with
  | Some v => ret v
  | None => raise (PyException (mkExc "KeyError" ("'" ++ k ++ "'")))
  end.

(** ** The script *)

Infix "</>" := joinpath (at level 40, left associativity).

(** The parsed command line: [--weights], [--output], [--android-project]. *)
Record Args := mkArgs {
  weights : string;
  output : string;
  android_project : option string
}.

(** The truth value of [args.android_project]: [None] and the empty string
    are false. *)
Definition truthy (o : option string) : bool :=
  match o with
  | Some s => str_nonempty s
  | None => false
  end.

Section Script.

Variable libs : Libs.

Local Open Scope py_scope.

Definition export_to_onnx (weights_path output_dir : string) : M string :=
  print (nl ++ "[1/3] Exporting " ++ weights_path ++ " to ONNX...") ;;
  try_except
    (YOLO <- invoke (EvImport "ultralytics") (ultralytics_YOLO libs) ;;
     model <- call (EvYOLO weights_path) (YOLO weights_path) ;;
     onnx_path <- call (EvExport "onnx" 640) (yolo_export model "onnx" 640) ;;
     print ("✓ ONNX export complete: " ++ onnx_path) ;;
     ret onnx_path)
    (fun e =>
       print ("✗ ONNX export failed: " ++ exc_msg e) ;;
       sys_exit 1).

Definition tf2onnx_cmd (onnx_path tflite_path : string) : list string :=
  ["python"; "-m"; "tf2onnx.convert";
   "--opset"; "13";
   "--tflite"; tflite_path;
   "--input"; onnx_path].

Definition convert_to_tflite (onnx_path tflite_path : string) : M bool :=
  print (nl ++ "[2/3] Converting ONNX to TensorFlow Lite...") ;;
  try_except
    (let cmd := tf2onnx_cmd onnx_path tflite_path in
     result <- call (EvSubprocess cmd) (subprocess_run libs cmd) ;;
     if negb (returncode result =? 0) then
       print "✗ TFLite conversion failed:" ;;
       print (stderr result) ;;
       ret false
     else
       found <- query (EvExists tflite_path) (os_path_exists tflite_path) ;;
       if found then
         size <- call (EvGetsize tflite_path)
                      (fun fs => (os_path_getsize tflite_path fs, fs)) ;;
         print ("✓ TFLite conversion complete: " ++ tflite_path
                ++ " (" ++ format_mb size ++ " MB)") ;;
         ret true
       else
         print "✗ TFLite file not created" ;;
         ret false)
    (fun e =>
       print ("✗ TFLite conversion failed: " ++ exc_msg e) ;;
       ret false).

Definition validate_tflite (tflite_path : string) : M bool :=
  print (nl ++ "[3/3] Validating TFLite model...") ;;
  try_except
    (new_interpreter <- invoke (EvImport "tensorflow") (tf_lite_Interpreter libs) ;;
     interpreter <- call (EvInterpreter tflite_path) (new_interpreter tflite_path) ;;
     invoke EvAllocateTensors (allocate_tensors interpreter) ;;
     input_details <- invoke EvGetInputDetails (get_input_details interpreter) ;;
     output_details <- invoke EvGetOutputDetails (get_output_details interpreter) ;;
     print "✓ Model validated successfully!" ;;
     print (nl ++ "Model Info:") ;;
     d <- list_index input_details 0 ;;
     shape <- dict_get d "shape" ;;
     print ("  Input shape: " ++ shape) ;;
     d <- list_index input_details 0 ;;
     dtype <- dict_get d "dtype" ;;
     print ("  Input type: " ++ dtype) ;;
     print ("  Number of outputs: " ++ pretty (length output_details)) ;;
     ret true)
    (fun e =>
       print ("✗ Model validation failed: " ++ exc_msg e) ;;
       ret false).

Definition assets_dir_of (android_project_path : string) : PurePath :=
  Path android_project_path </> "app" </> "src" </> "main" </> "assets".

Definition target_path_of (android_project_path : string) : PurePath :=
  assets_dir_of android_project_path </> "yolo_plate_detector.tflite".

Definition copy_to_android_assets (tflite_path android_project_path : string) : M bool :=
  try_except
    (let assets_dir := assets_dir_of android_project_path in
     call (EvMkdir assets_dir true true) (path_mkdir true true assets_dir) ;;
     let target_path := assets_dir </> "yolo_plate_detector.tflite" in
     call (EvCopy tflite_path target_path) (shutil_copy tflite_path target_path) ;;
     print (nl ++ "✓ Copied to Android assets: " ++ path_str target_path) ;;
     ret true)
    (fun e =>
       print ("✗ Failed to copy to Android assets: " ++ exc_msg e) ;;
       ret false).

(** [if cond: body] *)
Definition when (cond : bool) (body : M unit) : M unit :=
  if cond then body else ret tt.

Definition main (args : Args) : M unit :=
  found <- query (EvExists (weights args)) (os_path_exists (weights args)) ;;
  when (negb found)
    (print ("Error: Weights file not found: " ++ weights args) ;;
     sys_exit 1) ;;
  print (str_repeat "=" 60) ;;
  print "YOLO → TensorFlow Lite Conversion" ;;
  print (str_repeat "=" 60) ;;
  onnx_path <- export_to_onnx (weights args) (os_path_dirname (output args)) ;;
  converted <- convert_to_tflite onnx_path (output args) ;;
  when (negb converted) (sys_exit 1) ;;
  valid <- validate_tflite (output args) ;;
  when (negb valid) (sys_exit 1) ;;
  match android_project args with
  | Some project =>
      when (str_nonempty project)
        (copy_to_android_assets (output args) project ;;
         ret tt)
  | None => ret tt
  end ;;
  print (nl ++ str_repeat "=" 60) ;;
  print "✓ Conversion complete!" ;;
  print (str_repeat "=" 60) ;;
  print (nl ++ "Next steps:") ;;
  print ("1. Place " ++ output args ++ " in: app/src/main/assets/yolo_plate_detector.tflite") ;;
  print "2. Implement PlateDetector in Android" ;;
  print "3. Test with sample images".

(** The exit status of the process: 0 when [main] returns, the code of
    [sys.exit], 1 for an exception nobody caught. *)
Definition exit_status (r : Res unit) : Z :=
  match r with
  | Ret _ => 0
  | Raise (SystemExit code) => code
  | Raise (PyException _) => 1
  end.

Definition initial_state (fs : FS) : State :=
  {| st_fs := fs; st_stdout := []; st_trace := [] |}.

(** One invocation of the script on a file system. *)
Definition run (args : Args) (fs : FS) : Z * State :=
  let '(r, st) := main args (initial_state fs) in
  (exit_status r, st).

End Script.

(** ** Vocabulary of the statements *)

(** The state in which the exporter is entered: the weights were found and
    the banner is printed. *)
Definition start_state (args : Args) (fs : FS) : State :=
  {| st_fs := fs;
     st_stdout := [str_repeat "=" 60; "YOLO → TensorFlow Lite Conversion";
                   str_repeat "=" 60];
     st_trace := [EvExists (weights args)] |}.

(** What [main] does once validation has succeeded. *)
Definition finish (args : Args) : M unit :=
  (match android_project args with
   | Some project =>
       when (str_nonempty project)
         (copy_to_android_assets (output args) project ;;
          ret tt)
   | None => ret tt
   end ;;
   print (nl ++ str_repeat "=" 60) ;;
   print "✓ Conversion complete!" ;;
   print (str_repeat "=" 60) ;;
   print (nl ++ "Next steps:") ;;
   print ("1. Place " ++ output args ++ " in: app/src/main/assets/yolo_plate_detector.tflite") ;;
   print "2. Implement PlateDetector in Android" ;;
   print "3. Test with sample images")%py.

(** The closing lines of a successful run. *)
Definition closing_lines (args : Args) : list string :=
  [nl ++ str_repeat "=" 60;
   "✓ Conversion complete!";
   str_repeat "=" 60;
   nl ++ "Next steps:";
   "1. Place " ++ output args ++ " in: app/src/main/assets/yolo_plate_detector.tflite";
   "2. Implement PlateDetector in Android";
   "3. Test with sample images"].

(** The calls each stage makes. *)
Definition exporter_event (ev : Event) : bool :=
  match ev with
  | EvImport m => String.eqb m "ultralytics"
  | EvYOLO _ | EvExport _ _ => true
  | _ => false
  end.

Definition converter_event (ev : Event) : bool :=
  match ev with
  | EvSubprocess _ | EvExists _ | EvGetsize _ => true
  | _ => false
  end.

Definition validator_event (ev : Event) : bool :=
  match ev with
  | EvImport m => String.eqb m "tensorflow"
  | EvInterpreter _ | EvAllocateTensors | EvGetInputDetails | EvGetOutputDetails => true
  | _ => false
  end.

Definition installer_event (ev : Event) : bool :=
  match ev with
  | EvMkdir _ _ _ | EvCopy _ _ => true
  | _ => false
  end.

(** The installer was entered: its first action is the [mkdir] call. *)
Definition installer_ran (st : State) : bool := existsb installer_event (st_trace st).

(** The validator was entered: its first action is the tensorflow import. *)
Definition validator_ran (st : State) : bool := existsb validator_event (st_trace st).

(** The external loading/export call of the exporter raises [e] on [fs]: at
    the import, at [YOLO(weights_path)], or at [model.export]. *)
Inductive exporter_raises (libs : Libs) (weights_path : string) (fs : FS)
  : Exception -> Prop :=
| raises_at_import e :
    ultralytics_YOLO libs = Err e ->
    exporter_raises libs weights_path fs e
| raises_at_load YOLO e fs1 :
    ultralytics_YOLO libs = Ok YOLO ->
    YOLO weights_path fs = (Err e, fs1) ->
    exporter_raises libs weights_path fs e
| raises_at_export YOLO model e fs1 fs2 :
    ultralytics_YOLO libs = Ok YOLO ->
    YOLO weights_path fs = (Ok model, fs1) ->
    yolo_export model "onnx" 640 fs1 = (Err e, fs2) ->
    exporter_raises libs weights_path fs e.

(** [input_details[0]['shape']] and [input_details[0]['dtype']], as the
    validator reads them: the first exception met, if any. *)
Definition read_metadata (input_details : list details) : option Exception :=
  match input_details !! 0%nat with
  | None => Some (mkExc "IndexError" "list index out of range")
  | Some d =>
      match d !! "shape" with
      | None => Some (mkExc "KeyError" "'shape'")
      | Some _ =>
          match d !! "dtype" with
          | None => Some (mkExc "KeyError" "'dtype'")
          | Some _ => None
          end
      end
  end.

(** The validator meets the exception [e] on [fs]: at the import, loading
    the binary, allocating tensors, or reading tensor metadata. *)
Inductive validator_raises (libs : Libs) (tflite_path : string) (fs : FS)
  : Exception -> Prop :=
| raises_at_tf_import e :
    tf_lite_Interpreter libs = Err e ->
    validator_raises libs tflite_path fs e
| raises_at_interpreter new e fs1 :
    tf_lite_Interpreter libs = Ok new ->
    new tflite_path fs = (Err e, fs1) ->
    validator_raises libs tflite_path fs e
| raises_at_allocate new i e fs1 :
    tf_lite_Interpreter libs = Ok new ->
    new tflite_path fs = (Ok i, fs1) ->
    allocate_tensors i = Err e ->
    validator_raises libs tflite_path fs e
| raises_at_input_details new i e fs1 :
    tf_lite_Interpreter libs = Ok new ->
    new tflite_path fs = (Ok i, fs1) ->
    allocate_tensors i = Ok tt ->
    get_input_details i = Err e ->
    validator_raises libs tflite_path fs e
| raises_at_output_details new i ins e fs1 :
    tf_lite_Interpreter libs = Ok new ->
    new tflite_path fs = (Ok i, fs1) ->
    allocate_tensors i = Ok tt ->
    get_input_details i = Ok ins ->
    get_output_details i = Err e ->
    validator_raises libs tflite_path fs e
| raises_at_metadata new i ins outs e fs1 :
    tf_lite_Interpreter libs = Ok new ->
    new tflite_path fs = (Ok i, fs1) ->
    allocate_tensors i = Ok tt ->
    get_input_details i = Ok ins ->
    get_output_details i = Ok outs ->
    read_metadata ins = Some e ->
    validator_raises libs tflite_path fs e.

(** The calls of the exporter, in the order it makes them. *)
Definition exporter_calls (weights_path : string) : list Event :=
  [EvImport "ultralytics"; EvYOLO weights_path; EvExport "onnx" 640].

(** The calls of the installer, in the order it makes them. *)
Definition installer_calls (tflite_path android_project_path : string) : list Event :=
  [EvMkdir (assets_dir_of android_project_path) true true;
   EvCopy tflite_path (target_path_of android_project_path)].

(** What the converter answers, read off the external conversion process and
    the file system it leaves behind. *)
Definition conversion_succeeded (o : Outcome CompletedProcess) (tflite_path : string)
    (fs : FS) : bool :=
  match o with
  | Ok result => (returncode result =? 0) && os_path_exists tflite_path fs
  | Err _ => false
  end.




(** The file system is a tree: whatever exists lies in a directory. *)
Definition fs_wf (fs : FS) : bool :=
  forallb (fun entry => is_dir fs (parent (fst entry))) (map_to_list (nodes fs)).

(** The calls of the converter when the conversion tool exits with status
    zero and the output is there, in the order it makes them. *)
Definition converter_calls (onnx_path tflite_path : string) : list Event :=
  [EvSubprocess (tf2onnx_cmd onnx_path tflite_path);
   EvExists tflite_path;
   EvGetsize tflite_path].

(** The calls of the validator, in the order it makes them. *)
Definition validator_calls (tflite_path : string) : list Event :=
  [EvImport "tensorflow"; EvInterpreter tflite_path; EvAllocateTensors;
   EvGetInputDetails; EvGetOutputDetails].

(** The lines [main] prints once the weights are found. *)
Definition banner : list string :=
  [str_repeat "=" 60; "YOLO → TensorFlow Lite Conversion"; str_repeat "=" 60].

(** ** Sample environments *)

Module Demo.

Definition model : YoloModel :=
  mkYolo (fun _ _ fs =>
            (Ok "best.onnx", fs_insert (Path "best.onnx") (File "onnx graph") fs)).

(** A model whose export reports a path it never wrote. *)
Definition model_no_file : YoloModel :=
  mkYolo (fun _ _ fs => (Ok "best.onnx", fs)).

Definition model_failing : YoloModel :=
  mkYolo (fun _ _ fs => (Err (mkExc "RuntimeError" "onnx is not installed"), fs)).

(** The conversion tool writes the file named after [--tflite]. *)
Definition tool (cmd : list string) (fs : FS) : Outcome CompletedProcess * FS :=
  match cmd !! 6%nat with
  | Some out => (Ok (mkCompleted 0 "done" EmptyString),
                 fs_insert (Path out) (File "tflite model") fs)
  | None => (Ok (mkCompleted 2 EmptyString "usage"), fs)
  end.

Definition tool_failing (cmd : list string) (fs : FS) : Outcome CompletedProcess * FS :=
  (Ok (mkCompleted 1 EmptyString "unsupported operator"), fs).

Definition tool_silent (cmd : list string) (fs : FS) : Outcome CompletedProcess * FS :=
  (Ok (mkCompleted 0 EmptyString EmptyString), fs).

Definition input0 : details :=
  <["shape" := "[  1   3 640 640]"]> (<["dtype" := "<class 'numpy.float32'>"]> ∅).

Definition interpreter : Interpreter :=
  mkInterpreter (Ok tt) (Ok [input0]) (Ok [input0]).

Definition interpreter_no_inputs : Interpreter :=
  mkInterpreter (Ok tt) (Ok []) (Ok [input0]).

Definition libs : Libs :=
  mkLibs (Ok (fun _ fs => (Ok model, fs))) tool
         (Ok (fun _ fs => (Ok interpreter, fs))).

Definition libs_export_fails : Libs :=
  mkLibs (Ok (fun _ fs => (Ok model_failing, fs))) tool
         (Ok (fun _ fs => (Ok interpreter, fs))).

Definition libs_export_no_file : Libs :=
  mkLibs (Ok (fun _ fs => (Ok model_no_file, fs))) tool
         (Ok (fun _ fs => (Ok interpreter, fs))).

Definition libs_tool_fails : Libs :=
  mkLibs (Ok (fun _ fs => (Ok model, fs))) tool_failing
         (Ok (fun _ fs => (Ok interpreter, fs))).

Definition libs_tool_silent : Libs :=
  mkLibs (Ok (fun _ fs => (Ok model, fs))) tool_silent
         (Ok (fun _ fs => (Ok interpreter, fs))).

Definition libs_no_inputs : Libs :=
  mkLibs (Ok (fun _ fs => (Ok model, fs))) tool
         (Ok (fun _ fs => (Ok interpreter_no_inputs, fs))).

(** A working directory that holds the checkpoint only. *)
Definition fs0 : FS := mkFS (<[Path "best.pt" := File "weights"]> ∅) false.

(** The same, once the converted model is written. *)
Definition fs_converted : FS :=
  mkFS (<[Path "model.tflite" := File "tflite model"]>
        (<[Path "best.pt" := File "weights"]> ∅)) false.

(** The same, with an application tree that already holds an older model. *)
Definition fs_installed : FS :=
  mkFS (<[Path "proj/app/src/main/assets/yolo_plate_detector.tflite" := File "old model"]>
        (<[Path "proj/app/src/main/assets" := Dir]>
         (<[Path "proj/app/src/main" := Dir]>
          (<[Path "proj/app/src" := Dir]>
           (<[Path "proj/app" := Dir]>
            (<[Path "proj" := Dir]>
             (<[Path "model.tflite" := File "tflite model"]>
              (<[Path "best.pt" := File "weights"]> ∅))))))))
       false.

Definition args_plain : Args := mkArgs "best.pt" "model.tflite" None.
Definition args_project : Args := mkArgs "best.pt" "model.tflite" (Some "proj").
Definition args_empty_project : Args := mkArgs "best.pt" "model.tflite" (Some EmptyString).
Definition args_bad_project : Args := mkArgs "best.pt" "model.tflite" (Some "best.pt").
Definition args_missing : Args := mkArgs "missing.pt" "model.tflite" None.

(** The interpreter of the conversion tool is not on the search path. *)
Definition tool_missing (cmd : list string) (fs : FS) : Outcome CompletedProcess * FS :=
  (Err (mkExc "FileNotFoundError" "[Errno 2] No such file or directory: 'python'"), fs).

Definition libs_tool_missing : Libs :=
  mkLibs (Ok (fun _ fs => (Ok model, fs))) tool_missing
         (Ok (fun _ fs => (Ok interpreter, fs))).

(** A descriptor without its element type. *)
Definition input_no_dtype : details := <["shape" := "[  1   3 640 640]"]> ∅.

Definition interpreter_no_dtype : Interpreter :=
  mkInterpreter (Ok tt) (Ok [input_no_dtype]) (Ok [input0]).

Definition libs_no_dtype : Libs :=
  mkLibs (Ok (fun _ fs => (Ok model, fs))) tool
         (Ok (fun _ fs => (Ok interpreter_no_dtype, fs))).

(** Two inputs, the second without any metadata, and no output. *)
Definition interpreter_no_outputs : Interpreter :=
  mkInterpreter (Ok tt) (Ok [input0; ∅]) (Ok []).

Definition libs_no_outputs : Libs :=
  mkLibs (Ok (fun _ fs => (Ok model, fs))) tool
         (Ok (fun _ fs => (Ok interpreter_no_outputs, fs))).

(** The converted model on a medium mounted read-only. *)
Definition fs_read_only : FS :=
  mkFS (<[Path "model.tflite" := File "tflite model"]>
        (<[Path "best.pt" := File "weights"]> ∅)) true.

Definition args_no_output : Args := mkArgs "best.pt" EmptyString None.



End Demo.

(** ** How [main] decomposes into its stages *)

Ltac unmonad :=
  unfold bind, ret, print, call, query, invoke, raise, sys_exit, when,
         try_except, log_event, lift_outcome in *; simpl in *.

Lemma main_missing_weights libs args fs :
  os_path_exists (weights args) fs = false ->
  main libs args (initial_state fs) =
    (Raise (SystemExit 1),
     {| st_fs := fs;
        st_stdout := ["Error: Weights file not found: " ++ weights args];
        st_trace := [EvExists (weights args)] |}).
Proof.
  intros Hw. unfold main, initial_state, bind, query, when; simpl.
  rewrite Hw. reflexivity.
Qed.

Lemma main_staged libs args fs :
  os_path_exists (weights args) fs = true ->
  main libs args (initial_state fs) =
    match export_to_onnx libs (weights args) (os_path_dirname (output args))
                         (start_state args fs) with
    | (Raise e, s1) => (Raise e, s1)
    | (Ret onnx_path, s1) =>
        match convert_to_tflite libs onnx_path (output args) s1 with
        | (Raise e, s2) => (Raise e, s2)
        | (Ret false, s2) => (Raise (SystemExit 1), s2)
        | (Ret true, s2) =>
            match validate_tflite libs (output args) s2 with
            | (Raise e, s3) => (Raise e, s3)
            | (Ret false, s3) => (Raise (SystemExit 1), s3)
            | (Ret true, s3) => finish args s3
            end
        end
    end.
Proof.
  intros Hw. unfold main, finish, initial_state, start_state.
  unfold bind at 1. unfold query at 1. simpl. rewrite Hw.
  unfold bind at 1. unfold when at 1. simpl. unfold ret at 1.
  do 3 (unfold bind at 1; unfold print at 1; simpl).
  unfold bind at 1.
  destruct (export_to_onnx _ _ _ _) as [[onnx|e] s1]; [|reflexivity].
  unfold bind at 1.
  destruct (convert_to_tflite _ _ _ _) as [[[|]|e] s2]; [| reflexivity | reflexivity].
  unfold bind at 1. simpl. unfold ret at 1.
  unfold bind at 1.
  destruct (validate_tflite _ _ _) as [[[|]|e] s3]; reflexivity.
Qed.

(** ** The exporter *)

Lemma export_to_onnx_raises libs w d st e :
  exporter_raises libs w (st_fs st) e ->
  exists st',
    export_to_onnx libs w d st = (Raise (SystemExit 1), st') /\
    st_stdout st' = (st_stdout st ++
                     [(nl ++ "[1/3] Exporting " ++ w ++ " to ONNX...")%string;
                      ("✗ ONNX export failed: " ++ exc_msg e)%string])%list /\
    exists t, st_trace st' = (st_trace st ++ t)%list /\ t `prefix_of` exporter_calls w
              /\ t <> [].
Proof.
  intros H. unfold export_to_onnx. destruct st as [fs out tr].
  inversion H as [e0 Hi | Y e0 fs1 Hi Hl | Y m e0 fs1 fs2 Hi Hl Hx]; subst; simpl in *;
    unmonad; rewrite Hi; simpl.
  - eexists; split; [reflexivity|]; simpl. split; [now rewrite <- app_assoc|].
    exists [EvImport "ultralytics"]. split; [reflexivity|].
    split; [|discriminate]. now exists [EvYOLO w; EvExport "onnx" 640].
  - rewrite Hl; simpl.
    eexists; split; [reflexivity|]; simpl. split; [now rewrite <- app_assoc|].
    exists [EvImport "ultralytics"; EvYOLO w]. split; [now rewrite <- app_assoc|].
    split; [|discriminate]. now exists [EvExport "onnx" 640].
  - rewrite Hl; simpl. rewrite Hx; simpl.
    eexists; split; [reflexivity|]; simpl. split; [now rewrite <- app_assoc|].
    exists (exporter_calls w). split; [now rewrite <- !app_assoc|].
    split; [|discriminate]. reflexivity.
Qed.

Lemma export_to_onnx_cases libs w d st :
  (exists e, exporter_raises libs w (st_fs st) e) \/
  (exists YOLO model fs1 onnx_path fs2,
      ultralytics_YOLO libs = Ok YOLO /\
      YOLO w (st_fs st) = (Ok model, fs1) /\
      yolo_export model "onnx" 640 fs1 = (Ok onnx_path, fs2) /\
      export_to_onnx libs w d st =
        (Ret onnx_path,
         {| st_fs := fs2;
            st_stdout := (st_stdout st ++
                          [(nl ++ "[1/3] Exporting " ++ w ++ " to ONNX...")%string;
                           ("✓ ONNX export complete: " ++ onnx_path)%string])%list;
            st_trace := (st_trace st ++ exporter_calls w)%list |})).
Proof.
  destruct (ultralytics_YOLO libs) as [Y|e] eqn:Hi.
  2:{ left. exists e. now apply raises_at_import. }
  destruct (Y w (st_fs st)) as [[m|e] fs1] eqn:Hl.
  2:{ left. exists e. eapply raises_at_load; eauto. }
  destruct (yolo_export m "onnx" 640 fs1) as [[p|e] fs2] eqn:Hx.
  2:{ left. exists e. eapply raises_at_export; eauto. }
  right. exists Y, m, fs1, p, fs2. repeat split; auto.
  unfold export_to_onnx. destruct st as [fs out tr]; simpl in *.
  unmonad. rewrite Hi; simpl. rewrite Hl; simpl. rewrite Hx; simpl.
  unfold exporter_calls. now rewrite <- !app_assoc.
Qed.

(** ** The converter *)

Lemma exists_getsize s fs :
  os_path_exists s fs = true -> exists n, os_path_getsize s fs = Ok n.
Proof.
  unfold os_path_exists, os_path_getsize.
  destruct (fs_stat s fs) as [[c|]|]; intros H; try discriminate; eauto.
Qed.

Lemma convert_to_tflite_spec libs onnx tflite st :
  exists out t,
    convert_to_tflite libs onnx tflite st =
      (Ret (conversion_succeeded
              (fst (subprocess_run libs (tf2onnx_cmd onnx tflite) (st_fs st)))
              tflite
              (snd (subprocess_run libs (tf2onnx_cmd onnx tflite) (st_fs st)))),
       {| st_fs := snd (subprocess_run libs (tf2onnx_cmd onnx tflite) (st_fs st));
          st_stdout := (st_stdout st ++ out)%list;
          st_trace := (st_trace st ++ EvSubprocess (tf2onnx_cmd onnx tflite) :: t)%list |})
    /\ Forall (fun ev => converter_event ev = true) t.
Proof.
  unfold convert_to_tflite. destruct st as [fs out0 tr]; simpl.
  unmonad.
  destruct (subprocess_run libs (tf2onnx_cmd onnx tflite) fs) as [[r|e] fs'] eqn:Hrun;
    simpl.
  - destruct (returncode r =? 0) eqn:Hrc; simpl.
    + destruct (os_path_exists tflite fs') eqn:Hex; simpl.
      * destruct (exists_getsize _ _ Hex) as [n Hn]. rewrite Hn; simpl.
        eexists _, [EvExists tflite; EvGetsize tflite]. split.
        -- rewrite <- !app_assoc. simpl. reflexivity.
        -- repeat constructor.
      * eexists _, [EvExists tflite]. split.
        -- rewrite <- !app_assoc. simpl. reflexivity.
        -- repeat constructor.
    + eexists _, []. split.
      * rewrite <- !app_assoc. simpl. reflexivity.
      * constructor.
  - eexists _, []. split.
    + rewrite <- !app_assoc. simpl. reflexivity.
    + constructor.
Qed.

(** ** The validator *)

Lemma validate_tflite_raises libs p st e :
  validator_raises libs p (st_fs st) e ->
  exists st',
    validate_tflite libs p st = (Ret false, st') /\
    List.last (st_stdout st') EmptyString = "✗ Model validation failed: " ++ exc_msg e.
Proof.
  intros H. unfold validate_tflite. destruct st as [fs out tr]; simpl in *.
  inversion H as [e0 Hi | new e0 fs1 Hi Hn | new i e0 fs1 Hi Hn Ha
                  | new i e0 fs1 Hi Hn Ha Hin | new i ins e0 fs1 Hi Hn Ha Hin Hout
                  | new i ins outs e0 fs1 Hi Hn Ha Hin Hout Hm]; subst;
    unmonad; rewrite Hi; simpl;
    try (rewrite Hn; simpl); try (rewrite Ha; simpl);
    try (rewrite Hin; simpl); try (rewrite Hout; simpl);
    try (eexists; split; [reflexivity|]; simpl; apply List.last_last).
  unfold read_metadata, list_index, dict_get in *.
  destruct (ins !! 0%nat) as [d|]; unmonad.
  - destruct (d !! "shape") as [sh|]; unmonad.
    + destruct (d !! "dtype") as [dt|]; unmonad; [discriminate|].
      inversion Hm; subst. eexists; split; [reflexivity|]; simpl.
      apply List.last_last.
    + inversion Hm; subst. eexists; split; [reflexivity|]; simpl.
      apply List.last_last.
  - inversion Hm; subst. eexists; split; [reflexivity|]; simpl.
    apply List.last_last.
Qed.

Lemma validate_tflite_cases libs p st :
  (exists e, validator_raises libs p (st_fs st) e) \/
  (exists st', validate_tflite libs p st = (Ret true, st')).
Proof.
  destruct (tf_lite_Interpreter libs) as [new|e] eqn:Hi.
  2:{ left; exists e; now apply raises_at_tf_import. }
  destruct (new p (st_fs st)) as [[i|e] fs1] eqn:Hn.
  2:{ left; exists e; eapply raises_at_interpreter; eauto. }
  destruct (allocate_tensors i) as [[]|e] eqn:Ha.
  2:{ left; exists e; eapply raises_at_allocate; eauto. }
  destruct (get_input_details i) as [ins|e] eqn:Hin.
  2:{ left; exists e; eapply raises_at_input_details; eauto. }
  destruct (get_output_details i) as [outs|e] eqn:Hout.
  2:{ left; exists e; eapply raises_at_output_details; eauto. }
  destruct (read_metadata ins) as [e|] eqn:Hm.
  { left; exists e; eapply raises_at_metadata; eauto. }
  right. unfold validate_tflite. destruct st as [fs out tr]; simpl in *.
  unmonad. rewrite Hi; simpl. rewrite Hn; simpl. rewrite Ha; simpl.
  rewrite Hin; simpl. rewrite Hout; simpl.
  unfold read_metadata, list_index, dict_get in *.
  destruct (ins !! 0%nat) as [d|]; [|discriminate]. unmonad.
  destruct (d !! "shape") as [sh|]; [|discriminate]. unmonad.
  destruct (d !! "dtype") as [dt|]; [|discriminate]. unmonad.
  eexists; reflexivity.
Qed.

Lemma validate_tflite_total libs p st :
  exists b st', validate_tflite libs p st = (Ret b, st').
Proof.
  destruct (validate_tflite_cases libs p st) as [[e He]|[st' H]].
  - destruct (validate_tflite_raises _ _ _ _ He) as (st' & H & _). eauto.
  - eauto.
Qed.

Lemma validate_tflite_trace libs p st :
  exists t, st_trace (snd (validate_tflite libs p st)) =
              (st_trace st ++ EvImport "tensorflow" :: t)%list /\
            Forall (fun ev => validator_event ev = true) t.
Proof.
  unfold validate_tflite. destruct st as [fs out tr]; simpl.
  unmonad.
  destruct (tf_lite_Interpreter libs) as [new|e]; simpl.
  2:{ exists []. split; [reflexivity|constructor]. }
  destruct (new p fs) as [[i|e] fs1]; simpl.
  2:{ exists [EvInterpreter p]. rewrite <- !app_assoc. split; [reflexivity|repeat constructor]. }
  destruct (allocate_tensors i) as [[]|e]; simpl.
  2:{ exists [EvInterpreter p; EvAllocateTensors]. rewrite <- !app_assoc.
      split; [reflexivity|repeat constructor]. }
  destruct (get_input_details i) as [ins|e]; simpl.
  2:{ exists [EvInterpreter p; EvAllocateTensors; EvGetInputDetails]. rewrite <- !app_assoc.
      split; [reflexivity|repeat constructor]. }
  exists [EvInterpreter p; EvAllocateTensors; EvGetInputDetails; EvGetOutputDetails].
  split; [|repeat constructor].
  destruct (get_output_details i) as [outs|e]; simpl.
  2:{ now rewrite <- !app_assoc. }
  unfold list_index, dict_get.
  destruct (ins !! 0%nat) as [d|]; unmonad; [|now rewrite <- !app_assoc].
  destruct (d !! "shape") as [sh|]; unmonad; [|now rewrite <- !app_assoc].
  destruct (d !! "dtype") as [dt|]; unmonad; now rewrite <- !app_assoc.
Qed.

(** ** The file system *)

Lemma fs_lookup_insert_eq p n fs :
  parts p <> [] -> fs_lookup (fs_insert p n fs) p = Some n.
Proof.
  intros Hp. unfold fs_lookup, fs_insert; simpl.
  destruct (parts p); [congruence|]. apply lookup_insert_eq.
Qed.

Lemma fs_lookup_insert_ne p q n fs :
  p <> q -> fs_lookup (fs_insert p n fs) q = fs_lookup fs q.
Proof.
  intros Hne. unfold fs_lookup, fs_insert; simpl.
  destruct (parts q); [reflexivity|]. now apply lookup_insert_ne.
Qed.


Lemma parent_snoc a l x : parent (mkPath a (l ++ [x])) = mkPath a l.
Proof. unfold parent; simpl. now rewrite removelast_last. Qed.



Lemma mkdir_existing p fs :
  is_dir fs p = true -> path_mkdir true true p fs = (Ok tt, fs).
Proof.
  intros Hdir. unfold path_mkdir.
  assert (H : mkdir_parents true (anchor p) (rev (parts p)) fs = (None, fs)).
  { assert (Hp : mkPath (anchor p) (rev (rev (parts p))) = p).
    { rewrite rev_involutive. now destruct p. }
    destruct (rev (parts p)) as [|x rp] eqn:Hrev; simpl in *.
    - reflexivity.
    - rewrite Hp. unfold os_mkdir. unfold is_dir in Hdir.
      destruct (fs_lookup fs p) as [[|]|] eqn:E; try discriminate.
      simpl. unfold is_dir. now rewrite E. }
  now rewrite H.
Qed.

(** ** The installer *)

Lemma joinpath_component p c :
  Path c = mkPath EmptyString [c] ->
  p </> c = mkPath (anchor p) (parts p ++ [c]).
Proof. intros H. unfold joinpath. now rewrite H. Qed.

Lemma assets_dir_of_shape proj :
  assets_dir_of proj =
    mkPath (anchor (Path proj)) (parts (Path proj) ++ ["app"; "src"; "main"; "assets"]).
Proof.
  unfold assets_dir_of.
  rewrite !joinpath_component by reflexivity. simpl.
  now rewrite <- !app_assoc.
Qed.

Lemma target_path_of_shape proj :
  target_path_of proj =
    mkPath (anchor (Path proj))
           (parts (Path proj) ++
            ["app"; "src"; "main"; "assets"; "yolo_plate_detector.tflite"]).
Proof.
  unfold target_path_of. rewrite assets_dir_of_shape.
  rewrite joinpath_component by reflexivity. simpl.
  now rewrite <- !app_assoc.
Qed.

Lemma target_parent proj : parent (target_path_of proj) = assets_dir_of proj.
Proof.
  rewrite target_path_of_shape, assets_dir_of_shape.
  change ["app"; "src"; "main"; "assets"; "yolo_plate_detector.tflite"]
    with (["app"; "src"; "main"; "assets"] ++ ["yolo_plate_detector.tflite"])%list.
  rewrite app_assoc. apply parent_snoc.
Qed.

Lemma target_parts_nonempty proj : parts (target_path_of proj) <> [].
Proof.
  rewrite target_path_of_shape. cbn [parts]. intros H.
  destruct (parts (Path proj)); simpl in H; discriminate.
Qed.


(** The installer, when both of its calls go through. *)
Lemma installer_succeeds tflite proj st fs1 dst fs2 :
  path_mkdir true true (assets_dir_of proj) (st_fs st) = (Ok tt, fs1) ->
  shutil_copy tflite (target_path_of proj) fs1 = (Ok dst, fs2) ->
  copy_to_android_assets tflite proj st =
    (Ret true,
     {| st_fs := fs2;
        st_stdout := (st_stdout st ++
                      [(nl ++ "✓ Copied to Android assets: "
                           ++ path_str (target_path_of proj))%string])%list;
        st_trace := (st_trace st ++ installer_calls tflite proj)%list |}).
Proof.
  intros Hmk Hcp. unfold copy_to_android_assets. destruct st as [fs out tr]; simpl in *.
  fold (target_path_of proj). unmonad.
  rewrite Hmk; simpl. rewrite Hcp; simpl.
  unfold installer_calls. now rewrite <- !app_assoc.
Qed.

(** The installer never raises: it answers with a boolean, prints one line,
    and makes its calls once each, in order. *)
Lemma copy_to_android_assets_total tflite proj st :
  exists b fs' line t,
    copy_to_android_assets tflite proj st =
      (Ret b, {| st_fs := fs';
                 st_stdout := (st_stdout st ++ [line])%list;
                 st_trace := (st_trace st ++ t)%list |}) /\
    t `prefix_of` installer_calls tflite proj /\
    head t = Some (EvMkdir (assets_dir_of proj) true true).
Proof.
  unfold copy_to_android_assets. destruct st as [fs out tr]; simpl.
  fold (target_path_of proj). unmonad.
  destruct (path_mkdir true true (assets_dir_of proj) fs) as [[[]|e] fs1]; simpl.
  - destruct (shutil_copy tflite (target_path_of proj) fs1) as [[d|e] fs2]; simpl.
    + eexists true, _, _, (installer_calls tflite proj). split.
      * unfold installer_calls. now rewrite <- !app_assoc.
      * split; reflexivity.
    + eexists false, _, _, (installer_calls tflite proj). split.
      * unfold installer_calls. now rewrite <- !app_assoc.
      * split; reflexivity.
  - eexists false, _, _, [EvMkdir (assets_dir_of proj) true true]. split.
    + reflexivity.
    + split; [|reflexivity]. now exists [EvCopy tflite (target_path_of proj)].
Qed.

(** [shutil.copy] of a regular file onto a path that is free or holds
    another regular file, in a directory, on a writable file system. *)
Lemma shutil_copy_file src dst c fs :
  read_only fs = false ->
  fs_stat src fs = Some (File c) ->
  Path src <> dst ->
  fs_lookup fs dst <> Some Dir ->
  is_dir fs (parent dst) = true ->
  shutil_copy src dst fs = (Ok dst, fs_insert dst (File c) fs).
Proof.
  intros Hrw Hsrc Hne Hdst Hpar. unfold shutil_copy.
  assert (Hd : is_dir fs dst = false).
  { unfold is_dir. destruct (fs_lookup fs dst) as [[|]|]; congruence. }
  rewrite Hd, Hsrc.
  rewrite bool_decide_eq_false_2 by exact Hne.
  unfold is_dir in Hpar.
  destruct (fs_lookup fs dst) as [[c'|]|]; try congruence; simpl; rewrite ?Hrw; auto.
  destruct (fs_lookup fs (parent dst)) as [[|]|]; try discriminate.
  reflexivity.
Qed.


Lemma fs_wf_parent fs p n :
  fs_wf fs = true -> fs_lookup fs p = Some n -> is_dir fs (parent p) = true.
Proof.
  unfold fs_wf. rewrite forallb_forall. intros Hwf Hp.
  unfold fs_lookup in Hp. destruct (parts p) eqn:Hparts.
  - unfold is_dir, fs_lookup, parent; simpl. now rewrite Hparts.
  - apply (Hwf (p, n)). apply list_elem_of_In. now apply elem_of_map_to_list.
Qed.


(** ** The end of [main] *)

Lemma finish_spec args st :
  exists fs' out t,
    finish args st =
      (Ret tt, {| st_fs := fs';
                  st_stdout := (st_stdout st ++ out ++ closing_lines args)%list;
                  st_trace := (st_trace st ++ t)%list |}) /\
    Forall (fun ev => installer_event ev = true) t /\
    (truthy (android_project args) = false -> t = [] /\ fs' = st_fs st) /\
    (forall project, android_project args = Some project ->
                     str_nonempty project = true ->
                     t `prefix_of` installer_calls (output args) project /\
                     head t = Some (EvMkdir (assets_dir_of project) true true)).
Proof.
  unfold finish. destruct st as [fs out0 tr].
  destruct (android_project args) as [project|] eqn:Hp; cbn [truthy].
  - destruct (str_nonempty project) eqn:Hne.
    + destruct (copy_to_android_assets_total (output args) project (mkState fs out0 tr))
        as (b & fs' & line & t & Hcopy & Hpre & Hhead).
      unfold when. unfold bind at 1. unfold bind at 1. rewrite Hcopy.
      exists fs', [line], t. split.
      * unmonad. unfold closing_lines. now rewrite <- !app_assoc.
      * split.
        -- destruct Hpre as [k Hk]. unfold installer_calls in Hk.
           destruct t as [|e1 [|e2 [|e3 t]]]; simpl in Hk; inversion Hk; subst;
             repeat constructor.
        -- split; [discriminate|].
           intros project' Heq _. inversion Heq; subst. auto.
    + exists fs, [], []. split.
      * unmonad. unfold closing_lines. now rewrite <- !app_assoc, app_nil_r.
      * split; [constructor|]. split; [auto|].
        intros project' Heq Hne'. inversion Heq; subst. congruence.
  - exists fs, [], []. split.
    + unmonad. unfold closing_lines. now rewrite <- !app_assoc, app_nil_r.
    + split; [constructor|]. split; [auto|]. discriminate.
Qed.

(** ** Who makes which call *)

Lemma existsb_app_false {A} (f : A -> bool) l1 l2 :
  existsb f l1 = false -> existsb f l2 = false -> existsb f (l1 ++ l2)%list = false.
Proof. intros H1 H2. now rewrite existsb_app, H1, H2. Qed.

Lemma existsb_disjoint {A} (f g : A -> bool) l :
  (forall x, g x = true -> f x = false) ->
  Forall (fun x => g x = true) l -> existsb f l = false.
Proof.
  intros Hfg. induction 1 as [|x l Hx _ IH]; simpl; [reflexivity|].
  now rewrite (Hfg x Hx), IH.
Qed.

Lemma exporter_not_validator ev : exporter_event ev = true -> validator_event ev = false.
Proof.
  destruct ev; simpl; try discriminate; auto.
  intros H. apply String.eqb_eq in H. now subst.
Qed.

Lemma exporter_not_installer ev : exporter_event ev = true -> installer_event ev = false.
Proof. destruct ev; simpl; try discriminate; auto. Qed.

Lemma converter_not_validator ev : converter_event ev = true -> validator_event ev = false.
Proof. destruct ev; simpl; try discriminate; auto. Qed.

Lemma converter_not_installer ev : converter_event ev = true -> installer_event ev = false.
Proof. destruct ev; simpl; try discriminate; auto. Qed.

Lemma validator_not_installer ev : validator_event ev = true -> installer_event ev = false.
Proof. destruct ev; simpl; try discriminate; auto. Qed.

Lemma exporter_calls_events w : Forall (fun ev => exporter_event ev = true) (exporter_calls w).
Proof. repeat constructor. Qed.

Lemma prefix_Forall {A} (P : A -> Prop) (t l : list A) :
  t `prefix_of` l -> Forall P l -> Forall P t.
Proof. intros [k ->] H. now apply Forall_app in H as [H _]. Qed.

(** ** The trace of a run, stage by stage *)

Lemma export_to_onnx_returns libs w d st onnx s1 :
  export_to_onnx libs w d st = (Ret onnx, s1) ->
  st_trace s1 = (st_trace st ++ exporter_calls w)%list.
Proof.
  intros Hres.
  destruct (export_to_onnx_cases libs w d st)
    as [[e He] | (Y & m & fs1 & p & fs2 & _ & _ & _ & Hok)].
  - destruct (export_to_onnx_raises libs w d st e He) as (st' & Hbad & _).
    congruence.
  - rewrite Hok in Hres. inversion Hres; subst. reflexivity.
Qed.

Lemma convert_to_tflite_returns libs onnx tflite st r s2 :
  convert_to_tflite libs onnx tflite st = (r, s2) ->
  exists t, st_trace s2 = (st_trace st ++ EvSubprocess (tf2onnx_cmd onnx tflite) :: t)%list
            /\ Forall (fun ev => converter_event ev = true) t.
Proof.
  intros Hres.
  destruct (convert_to_tflite_spec libs onnx tflite st) as (out & t & Hspec & Ht).
  rewrite Hspec in Hres. inversion Hres; subst. simpl. eauto.
Qed.

Lemma validate_tflite_returns libs tflite st r s3 :
  validate_tflite libs tflite st = (r, s3) ->
  exists t, st_trace s3 = (st_trace st ++ EvImport "tensorflow" :: t)%list
            /\ Forall (fun ev => validator_event ev = true) t.
Proof.
  intros Hres. destruct (validate_tflite_trace libs tflite st) as (t & Ht & Hall).
  rewrite Hres in Ht. simpl in Ht. eauto.
Qed.

Lemma no_installer_before_finish libs args fs onnx s1 r2 s2 r3 s3 :
  export_to_onnx libs (weights args) (os_path_dirname (output args))
                 (start_state args fs) = (Ret onnx, s1) ->
  convert_to_tflite libs onnx (output args) s1 = (r2, s2) ->
  validate_tflite libs (output args) s2 = (r3, s3) ->
  installer_ran s1 = false /\ installer_ran s2 = false /\ installer_ran s3 = false /\
  validator_ran s1 = false /\ validator_ran s2 = false.
Proof.
  intros He Hc Hv.
  apply export_to_onnx_returns in He.
  apply convert_to_tflite_returns in Hc as (t2 & Hc & Ht2).
  apply validate_tflite_returns in Hv as (t3 & Hv & Ht3).
  unfold installer_ran, validator_ran.
  rewrite Hv, Hc, He. simpl.
  rewrite !existsb_app. simpl.
  rewrite (existsb_disjoint installer_event converter_event t2
             converter_not_installer Ht2).
  rewrite (existsb_disjoint installer_event validator_event t3
             validator_not_installer Ht3).
  rewrite (existsb_disjoint validator_event converter_event t2
             converter_not_validator Ht2).
  repeat split; reflexivity.
Qed.

(** ** The installer when a call fails *)

Lemma installer_mkdir_fails tflite proj st e fs1 :
  path_mkdir true true (assets_dir_of proj) (st_fs st) = (Err e, fs1) ->
  copy_to_android_assets tflite proj st =
    (Ret false,
     {| st_fs := fs1;
        st_stdout := (st_stdout st ++
                      [("✗ Failed to copy to Android assets: " ++ exc_msg e)%string])%list;
        st_trace := (st_trace st ++ [EvMkdir (assets_dir_of proj) true true])%list |}).
Proof.
  intros Hmk. unfold copy_to_android_assets. destruct st as [fs out tr]; simpl in *.
  fold (target_path_of proj). unmonad. rewrite Hmk; simpl. reflexivity.
Qed.

Lemma installer_copy_fails tflite proj st fs1 e fs2 :
  path_mkdir true true (assets_dir_of proj) (st_fs st) = (Ok tt, fs1) ->
  shutil_copy tflite (target_path_of proj) fs1 = (Err e, fs2) ->
  copy_to_android_assets tflite proj st =
    (Ret false,
     {| st_fs := fs2;
        st_stdout := (st_stdout st ++
                      [("✗ Failed to copy to Android assets: " ++ exc_msg e)%string])%list;
        st_trace := (st_trace st ++ installer_calls tflite proj)%list |}).
Proof.
  intros Hmk Hcp. unfold copy_to_android_assets. destruct st as [fs out tr]; simpl in *.
  fold (target_path_of proj). unmonad.
  rewrite Hmk; simpl. rewrite Hcp; simpl.
  unfold installer_calls. now rewrite <- !app_assoc.
Qed.

Lemma os_mkdir_ok p fs fs' :
  os_mkdir p fs = (None, fs') -> is_dir fs' p = true.
Proof.
  unfold os_mkdir.
  destruct (fs_lookup fs p) as [n|] eqn:Hp; [discriminate|].
  destruct (fs_lookup fs (parent p)) as [[c|]|]; try discriminate.
  destruct (read_only fs); [discriminate|].
  intros H. injection H as <-. unfold is_dir.
  rewrite fs_lookup_insert_eq; [reflexivity|].
  intros Hnil. unfold fs_lookup in Hp. rewrite Hnil in Hp. discriminate.
Qed.

Lemma mkdir_flat_ok exist_ok p fs fs' :
  mkdir_flat exist_ok p fs = (None, fs') -> is_dir fs' p = true.
Proof.
  unfold mkdir_flat.
  destruct (os_mkdir p fs) as [[e|] fs1] eqn:Hos.
  - destruct e; try discriminate;
      (destruct exist_ok; simpl; [|discriminate];
       destruct (is_dir fs1 p) eqn:Hd; [|discriminate];
       intros H; injection H as <-; exact Hd).
  - intros H. injection H as <-. eapply os_mkdir_ok; eauto.
Qed.

Lemma mkdir_parents_ok exist_ok a rp fs fs' :
  mkdir_parents exist_ok a rp fs = (None, fs') -> is_dir fs' (mkPath a (rev rp)) = true.
Proof.
  destruct rp as [|x rp]; cbn [mkdir_parents].
  - destruct (os_mkdir (mkPath a (rev [])) fs) as [[e|] fs1] eqn:Hos.
    + destruct e; try discriminate;
        (destruct exist_ok; simpl; [|discriminate];
         destruct (is_dir fs1 (mkPath a [])) eqn:Hd; [|discriminate];
         intros H; injection H as <-; exact Hd).
    + intros H. injection H as <-. eapply os_mkdir_ok; eauto.
  - destruct (os_mkdir (mkPath a (rev (x :: rp))) fs) as [[e|] fs1] eqn:Hos.
    + destruct e.
      * destruct (mkdir_parents true a rp fs1) as [[e'|] fs2]; [discriminate|].
        apply mkdir_flat_ok.
      * destruct exist_ok; simpl; [|discriminate].
        destruct (is_dir fs1 (mkPath a (rev rp ++ [x]))) eqn:Hd; [|discriminate].
        intros H; injection H as <-; exact Hd.
      * destruct exist_ok; simpl; [|discriminate].
        destruct (is_dir fs1 (mkPath a (rev rp ++ [x]))) eqn:Hd; [|discriminate].
        intros H; injection H as <-; exact Hd.
      * destruct exist_ok; simpl; [|discriminate].
        destruct (is_dir fs1 (mkPath a (rev rp ++ [x]))) eqn:Hd; [|discriminate].
        intros H; injection H as <-; exact Hd.
      * destruct exist_ok; simpl; [|discriminate].
        destruct (is_dir fs1 (mkPath a (rev rp ++ [x]))) eqn:Hd; [|discriminate].
        intros H; injection H as <-; exact Hd.
    + intros H. injection H as <-. eapply os_mkdir_ok; eauto.
Qed.

Lemma path_mkdir_ok_is_dir exist_ok p fs fs' :
  path_mkdir true exist_ok p fs = (Ok tt, fs') -> is_dir fs' p = true.
Proof.
  unfold path_mkdir.
  destruct (mkdir_parents exist_ok (anchor p) (rev (parts p)) fs) as [[e|] fs1] eqn:Hmk;
    [discriminate|].
  intros H. injection H as <-.
  apply mkdir_parents_ok in Hmk. rewrite rev_involutive in Hmk. now destruct p.
Qed.

Lemma shutil_copy_err_unchanged src dst fs e fs' :
  shutil_copy src dst fs = (Err e, fs') -> fs' = fs.
Proof.
  unfold shutil_copy.
  repeat match goal with
         | |- context [match ?x with _ => _ end] => destruct x
         | |- context [if ?x then _ else _] => destruct x
         end;
    intros H; try discriminate; now injection H.
Qed.

(** ** The file system across the installer *)

Lemma fs_wf_below_file fs a l c k :
  fs_wf fs = true ->
  fs_lookup fs (mkPath a l) = Some (File c) ->
  k <> [] ->
  fs_lookup fs (mkPath a (l ++ k)) = None.
Proof.
  intros Hwf Hfile. induction k as [|x k IH] using rev_ind; [congruence|]. intros _.
  destruct (fs_lookup fs (mkPath a (l ++ k ++ [x]))) as [n|] eqn:Hq; [|reflexivity].
  exfalso. apply (fs_wf_parent _ _ _ Hwf) in Hq.
  rewrite app_assoc, parent_snoc in Hq. unfold is_dir in Hq.
  destruct k as [|y k].
  - rewrite app_nil_r, Hfile in Hq. discriminate.
  - rewrite IH in Hq by discriminate. discriminate.
Qed.

Lemma mkdir_parents_below_file fs a rp0 c k :
  fs_wf fs = true ->
  fs_lookup fs (mkPath a (rev rp0)) = Some (File c) ->
  k <> [] ->
  mkdir_parents true a (k ++ rp0) fs = (Some ENOTDIR, fs).
Proof.
  intros Hwf Hfile. induction k as [|x k IH]; [congruence|]. intros _.
  assert (Hself : fs_lookup fs (mkPath a (rev ((x :: k) ++ rp0))) = None).
  { rewrite rev_app_distr. apply (fs_wf_below_file fs a (rev rp0) c); auto.
    simpl. destruct (rev k); discriminate. }
  assert (Hparent : parent (mkPath a (rev ((x :: k) ++ rp0)))
                    = mkPath a (rev (k ++ rp0))).
  { simpl. apply parent_snoc. }
  change (mkdir_parents true a ((x :: k) ++ rp0) fs) with
    (match os_mkdir (mkPath a (rev ((x :: k) ++ rp0))) fs with
     | (None, fs') => (None, fs')
     | (Some ENOENT, fs') =>
         match mkdir_parents true a (k ++ rp0) fs' with
         | (Some e, fs'') => (Some e, fs'')
         | (None, fs'') => mkdir_flat true (mkPath a (rev ((x :: k) ++ rp0))) fs''
         end
     | (Some e, fs') =>
         if true && is_dir fs' (mkPath a (rev ((x :: k) ++ rp0)))
         then (None, fs') else (Some e, fs')
     end).
  unfold os_mkdir. rewrite Hself, Hparent.
  destruct k as [|y k].
  - simpl app at 1. rewrite Hfile. simpl. unfold is_dir.
    simpl in Hself. now rewrite Hself.
  - rewrite rev_app_distr.
    rewrite (fs_wf_below_file fs a (rev rp0) c (rev (y :: k))); auto.
    + rewrite IH by discriminate. reflexivity.
    + simpl. destruct (rev k); discriminate.
Qed.

Lemma os_mkdir_read_only p fs :
  read_only fs = true -> snd (os_mkdir p fs) = fs.
Proof.
  intros Hro. unfold os_mkdir.
  destruct (fs_lookup fs p); [reflexivity|].
  destruct (fs_lookup fs (parent p)) as [[c|]|]; try reflexivity.
  now rewrite Hro.
Qed.

Lemma mkdir_flat_read_only exist_ok p fs :
  read_only fs = true -> snd (mkdir_flat exist_ok p fs) = fs.
Proof.
  intros Hro. unfold mkdir_flat.
  pose proof (os_mkdir_read_only p fs Hro) as H.
  destruct (os_mkdir p fs) as [[e|] fs1]; simpl in H; subst; [|reflexivity].
  destruct e; try reflexivity; destruct (exist_ok && is_dir fs p); reflexivity.
Qed.

Lemma mkdir_parents_read_only exist_ok a rp fs :
  read_only fs = true -> snd (mkdir_parents exist_ok a rp fs) = fs.
Proof.
  intros Hro. revert exist_ok. induction rp as [|x rp IH]; intros exist_ok;
    cbn [mkdir_parents].
  - pose proof (os_mkdir_read_only (mkPath a (rev [])) fs Hro) as H.
    destruct (os_mkdir (mkPath a (rev [])) fs) as [[e|] fs1]; simpl in H; subst;
      [|reflexivity].
    destruct e; try reflexivity;
      destruct (exist_ok && is_dir fs (mkPath a (rev []))); reflexivity.
  - pose proof (os_mkdir_read_only (mkPath a (rev (x :: rp))) fs Hro) as H.
    destruct (os_mkdir (mkPath a (rev (x :: rp))) fs) as [[e|] fs1]; simpl in H; subst;
      [|reflexivity].
    destruct e;
      try (destruct (exist_ok && is_dir fs (mkPath a (rev (x :: rp)))); reflexivity).
    specialize (IH true).
    destruct (mkdir_parents true a rp fs) as [[e'|] fs2]; simpl in IH; subst;
      [reflexivity|].
    now apply mkdir_flat_read_only.
Qed.

Lemma shutil_copy_read_only src dst fs :
  read_only fs = true -> exists e, shutil_copy src dst fs = (Err e, fs).
Proof.
  intros Hro. unfold shutil_copy. rewrite Hro.
  repeat match goal with
         | |- context [match ?x with _ => _ end] => destruct x
         | |- context [if ?x then _ else _] => destruct x
         end; eauto.
Qed.

Lemma fs_insert_twice p n fs : fs_insert p n (fs_insert p n fs) = fs_insert p n fs.
Proof. unfold fs_insert; simpl. f_equal. apply insert_insert_eq. Qed.

Lemma Path_empty_parts : parts (Path EmptyString) = [].
Proof. reflexivity. Qed.

(** What [shutil.copy] has done when it returns: the destination it chose,
    and the content it wrote there. *)
Lemma shutil_copy_ok_inv src dst fs d fs2 :
  shutil_copy src dst fs = (Ok d, fs2) ->
  d = (if is_dir fs dst then dst </> os_path_basename src else dst) /\
  read_only fs = false /\
  fs_lookup fs d <> Some Dir /\
  Path src <> d /\
  exists c, fs_stat src fs = Some (File c) /\ fs2 = fs_insert d (File c) fs.
Proof.
  unfold shutil_copy.
  set (d' := if is_dir fs dst then dst </> os_path_basename src else dst).
  destruct (fs_stat src fs) as [[c|]|] eqn:Hsrc.
  - assert (Hpath : fs_lookup fs (Path src) = Some (File c)).
    { unfold fs_stat in Hsrc. destruct src; [discriminate|exact Hsrc]. }
    destruct (fs_lookup fs d') as [[c'|]|] eqn:Hd.
    + destruct (bool_decide (Path src = d')) eqn:Hb; [discriminate|].
      apply bool_decide_eq_false in Hb.
      destruct (read_only fs) eqn:Hro; [discriminate|].
      intros H. injection H as <- <-.
      split; [reflexivity|]. split; [reflexivity|].
      split; [rewrite Hd; discriminate|]. split; [exact Hb|]. eauto.
    + destruct (bool_decide (Path src = d')); discriminate.
    + destruct (fs_lookup fs (parent d')) as [[c'|]|]; try discriminate.
      destruct (read_only fs) eqn:Hro; [discriminate|].
      intros H. injection H as <- <-.
      split; [reflexivity|]. split; [reflexivity|].
      split; [rewrite Hd; discriminate|].
      split; [intros Heq; rewrite Heq in Hpath; congruence|]. eauto.
  - destruct (fs_lookup fs d') as [n|];
      [destruct (bool_decide (Path src = d'))|]; discriminate.
  - discriminate.
Qed.

(** A copy that returned returns again on the file system it left, and
    leaves it as it is. *)
Lemma shutil_copy_again src dst fs d fs2 :
  shutil_copy src dst fs = (Ok d, fs2) -> shutil_copy src dst fs2 = (Ok d, fs2).
Proof.
  intros Hcp.
  destruct (shutil_copy_ok_inv _ _ _ _ _ Hcp) as (Hd & Hro & Hnd & Hne & c & Hsrc & ->).
  assert (Hparts : parts d <> []).
  { intros Hnil. apply Hnd. unfold fs_lookup. now rewrite Hnil. }
  assert (Hnew : fs_lookup (fs_insert d (File c) fs) d = Some (File c))
    by now apply fs_lookup_insert_eq.
  assert (Hdir : is_dir (fs_insert d (File c) fs) dst = is_dir fs dst).
  { destruct (is_dir fs dst) eqn:Hdst.
    - unfold is_dir in *. rewrite fs_lookup_insert_ne; [exact Hdst|].
      intros Heq. rewrite Heq in Hnd.
      destruct (fs_lookup fs dst) as [[|]|]; try discriminate. now apply Hnd.
    - subst d. unfold is_dir. now rewrite Hnew. }
  assert (Hsrc' : fs_stat src (fs_insert d (File c) fs) = Some (File c)).
  { unfold fs_stat in *. destruct src; [discriminate|].
    rewrite fs_lookup_insert_ne by congruence. exact Hsrc. }
  unfold shutil_copy. rewrite Hdir, <- Hd, Hsrc', Hnew.
  rewrite bool_decide_eq_false_2 by exact Hne.
  cbn [read_only fs_insert]. rewrite Hro.
  now rewrite fs_insert_twice.
Qed.

(** * The claims *)

(** C4.  When the path given to [--weights] does not exist, the process exits
    with status 1 having made no call but the existence test itself: no
    import, no exporter, no conversion subprocess, no interpreter, no copy;
    the file system is left as it was and the only output is the error
    line. *)
Theorem missing_weights_exit_nonzero libs args fs :
  os_path_exists (weights args) fs = false ->
  run libs args fs =
    (1, {| st_fs := fs;
           st_stdout := ["Error: Weights file not found: " ++ weights args];
           st_trace := [EvExists (weights args)] |}).
Proof.
  intros Hw. unfold run. now rewrite main_missing_weights.
Qed.

Lemma missing_weights_exit_nonzero_witness :
  fst (run Demo.libs Demo.args_missing Demo.fs0) = 1 /\
  st_trace (snd (run Demo.libs Demo.args_missing Demo.fs0)) = [EvExists "missing.pt"].
Proof.
  rewrite (missing_weights_exit_nonzero Demo.libs Demo.args_missing Demo.fs0).
  - split; reflexivity.
  - vm_compute. reflexivity.
Defined.

(** C9.  The exporter ignores its output-directory argument: with the same
    weights path, the same libraries and the same state, two output
    directories give the same calls, the same effects and the same result;
    a path it returns is the one [model.export(format='onnx', imgsz=640)]
    returned. *)
Theorem export_ignores_output_dir libs w d1 d2 st :
  export_to_onnx libs w d1 st = export_to_onnx libs w d2 st /\
  match fst (export_to_onnx libs w d1 st) with
  | Ret onnx_path =>
      exists YOLO model fs1 fs2,
        ultralytics_YOLO libs = Ok YOLO /\
        YOLO w (st_fs st) = (Ok model, fs1) /\
        yolo_export model "onnx" 640 fs1 = (Ok onnx_path, fs2)
  | Raise e => e = SystemExit 1
  end.
Proof.
  split; [reflexivity|].
  destruct (export_to_onnx_cases libs w d1 st)
    as [[e He] | (Y & m & fs1 & p & fs2 & Hi & Hl & Hx & Hres)].
  - destruct (export_to_onnx_raises libs w d1 st e He) as (st' & Hres & _).
    now rewrite Hres.
  - rewrite Hres. simpl. exists Y, m, fs1, fs2. auto.
Qed.

(** C2.  The converter always answers with a boolean, and answers true
    exactly when the conversion subprocess returned with exit status zero and
    the output path exists on the file system the subprocess left; a zero
    exit status with no file at the output path gives false. *)
Theorem convert_succeeds_iff libs onnx tflite st :
  let outcome := subprocess_run libs (tf2onnx_cmd onnx tflite) (st_fs st) in
  (exists b, fst (convert_to_tflite libs onnx tflite st) = Ret b) /\
  (fst (convert_to_tflite libs onnx tflite st) = Ret true <->
   exists result, fst outcome = Ok result /\ returncode result = 0 /\
                  os_path_exists tflite (snd outcome) = true) /\
  (forall result, fst outcome = Ok result -> returncode result = 0 ->
                  os_path_exists tflite (snd outcome) = false ->
                  fst (convert_to_tflite libs onnx tflite st) = Ret false).
Proof.
  intros outcome.
  destruct (convert_to_tflite_spec libs onnx tflite st) as (out & t & Hres & _).
  rewrite Hres. fold outcome. simpl. split; [eauto|]. split.
  - split.
    + intros H. injection H as Hok. unfold conversion_succeeded in Hok.
      destruct (fst outcome) as [r|e]; [|discriminate].
      apply andb_true_iff in Hok as [Hrc Hex]. apply Z.eqb_eq in Hrc.
      exists r. auto.
    + intros (r & Hr & Hrc & Hex). rewrite Hr. simpl.
      rewrite Hrc, Hex. reflexivity.
  - intros r Hr Hrc Hex. rewrite Hr. simpl. rewrite Hrc, Hex. reflexivity.
Qed.

Lemma convert_succeeds_iff_witness :
  fst (convert_to_tflite Demo.libs_tool_silent "best.onnx" "model.tflite"
                         (initial_state Demo.fs0)) = Ret false.
Proof.
  apply (convert_succeeds_iff Demo.libs_tool_silent "best.onnx" "model.tflite"
                              (initial_state Demo.fs0))
    with (result := mkCompleted 0 EmptyString EmptyString);
    vm_compute; reflexivity.
Defined.

(** C5.  Whatever exception the external loading/export call raises (at the
    import, at [YOLO(weights_path)] or at [model.export]), the exporter
    catches it, prints it with its message, and ends in [sys.exit(1)]: it
    returns no value, makes each of its calls at most once, and when called
    from [main] the process exits with status 1 in that very state. *)
Theorem export_failure_is_fatal libs w d st e :
  exporter_raises libs w (st_fs st) e ->
  exists st',
    export_to_onnx libs w d st = (Raise (SystemExit 1), st') /\
    st_stdout st' = (st_stdout st ++
                     [(nl ++ "[1/3] Exporting " ++ w ++ " to ONNX...")%string;
                      ("✗ ONNX export failed: " ++ exc_msg e)%string])%list /\
    (exists t, st_trace st' = (st_trace st ++ t)%list /\
               t `prefix_of` exporter_calls w /\ NoDup t) /\
    (forall args fs,
        os_path_exists (weights args) fs = true ->
        w = weights args -> d = os_path_dirname (output args) ->
        st = start_state args fs ->
        run libs args fs = (1, st')).
Proof.
  intros H.
  destruct (export_to_onnx_raises libs w d st e H) as (st' & Hres & Hout & t & Ht & Hpre & _).
  exists st'. split; [exact Hres|]. split; [exact Hout|]. split.
  - exists t. split; [exact Ht|]. split; [exact Hpre|].
    destruct Hpre as [k Hk].
    assert (Hnd : NoDup (exporter_calls w)).
    { unfold exporter_calls. rewrite !NoDup_cons, !not_elem_of_cons.
      repeat split; try apply NoDup_nil_2; try discriminate; apply not_elem_of_nil. }
    rewrite Hk in Hnd. now apply NoDup_app in Hnd as [Hnd _].
  - intros args fs Hw -> -> ->. unfold run.
    rewrite main_staged by exact Hw. now rewrite Hres.
Qed.

Lemma export_failure_is_fatal_witness :
  fst (run Demo.libs_export_fails Demo.args_plain Demo.fs0) = 1.
Proof.
  destruct (export_failure_is_fatal Demo.libs_export_fails "best.pt"
              (os_path_dirname "model.tflite")
              (start_state Demo.args_plain Demo.fs0)
              (mkExc "RuntimeError" "onnx is not installed"))
    as (st' & _ & _ & _ & Hrun).
  - eapply raises_at_export; reflexivity.
  - rewrite (Hrun Demo.args_plain Demo.fs0); reflexivity.
Defined.

(** C6.  The validator always returns a boolean and raises nothing: an
    exception met at the tensorflow import, while loading the binary,
    allocating tensors or reading tensor metadata (indexing into an empty
    list of input descriptors included) is caught, printed, and answered with
    false; and on false [main] exits with status 1. *)
Theorem validate_never_raises libs tflite st :
  (exists b st', validate_tflite libs tflite st = (Ret b, st')) /\
  (forall e, validator_raises libs tflite (st_fs st) e ->
             exists st',
               validate_tflite libs tflite st = (Ret false, st') /\
               List.last (st_stdout st') EmptyString =
                 "✗ Model validation failed: " ++ exc_msg e) /\
  (forall new i outs fs1,
      tf_lite_Interpreter libs = Ok new ->
      new tflite (st_fs st) = (Ok i, fs1) ->
      allocate_tensors i = Ok tt ->
      get_input_details i = Ok [] ->
      get_output_details i = Ok outs ->
      exists st',
        validate_tflite libs tflite st = (Ret false, st') /\
        List.last (st_stdout st') EmptyString =
          "✗ Model validation failed: list index out of range") /\
  (forall args fs onnx s1 s3,
      os_path_exists (weights args) fs = true ->
      export_to_onnx libs (weights args) (os_path_dirname (output args))
                     (start_state args fs) = (Ret onnx, s1) ->
      convert_to_tflite libs onnx (output args) s1 = (Ret true, st) ->
      tflite = output args ->
      validate_tflite libs tflite st = (Ret false, s3) ->
      run libs args fs = (1, s3)).
Proof.
  split; [apply validate_tflite_total|]. split; [|split].
  - intros e He. now apply validate_tflite_raises.
  - intros new i outs fs1 Hi Hn Ha Hin Hout.
    apply (validate_tflite_raises libs tflite st
             (mkExc "IndexError" "list index out of range")).
    eapply raises_at_metadata; eauto.
  - intros args fs onnx s1 s3 Hw He Hc -> Hv. unfold run.
    rewrite main_staged by exact Hw. now rewrite He, Hc, Hv.
Qed.

Lemma validate_never_raises_witness :
  fst (run Demo.libs_no_inputs Demo.args_plain Demo.fs0) = 1 /\
  List.last (st_stdout (snd (run Demo.libs_no_inputs Demo.args_plain Demo.fs0)))
            EmptyString = "✗ Model validation failed: list index out of range".
Proof.
  pose (s1 := snd (export_to_onnx Demo.libs_no_inputs "best.pt"
                     (os_path_dirname "model.tflite")
                     (start_state Demo.args_plain Demo.fs0))).
  pose (s2 := snd (convert_to_tflite Demo.libs_no_inputs "best.onnx" "model.tflite" s1)).
  destruct (validate_never_raises Demo.libs_no_inputs "model.tflite" s2)
    as (_ & _ & Hempty & Hmain).
  destruct (Hempty (fun _ fs => (Ok Demo.interpreter_no_inputs, fs))
                   Demo.interpreter_no_inputs [Demo.input0] (st_fs s2))
    as (s3 & Hv & Hlast); try reflexivity.
  rewrite (Hmain Demo.args_plain Demo.fs0 "best.onnx" s1 s3);
    try reflexivity; try exact Hv.
  split; [reflexivity | exact Hlast].
Defined.

(** C1 (amended).  When export, conversion and validation all succeed, the
    process exits with status 0 whatever the project path and whatever the
    outcome of the copy; the installer is entered exactly when the project
    path is given and is not the empty string, and then its first call is
    the [mkdir] of the assets directory. *)
Theorem success_exits_zero libs args fs onnx s1 s2 s3 :
  os_path_exists (weights args) fs = true ->
  export_to_onnx libs (weights args) (os_path_dirname (output args))
                 (start_state args fs) = (Ret onnx, s1) ->
  convert_to_tflite libs onnx (output args) s1 = (Ret true, s2) ->
  validate_tflite libs (output args) s2 = (Ret true, s3) ->
  fst (run libs args fs) = 0 /\
  installer_ran (snd (run libs args fs)) = truthy (android_project args) /\
  (forall project,
      android_project args = Some project -> str_nonempty project = true ->
      exists t, st_trace (snd (run libs args fs)) = (st_trace s3 ++ t)%list /\
                t `prefix_of` installer_calls (output args) project /\
                head t = Some (EvMkdir (assets_dir_of project) true true)).
Proof.
  intros Hw He Hc Hv.
  destruct (no_installer_before_finish libs args fs onnx s1 _ s2 _ s3 He Hc Hv)
    as (_ & _ & Hno & _).
  unfold run. rewrite main_staged by exact Hw. rewrite He, Hc, Hv.
  destruct (finish_spec args s3) as (fs' & out & t & Hfin & Hall & Hfalse & Htrue).
  rewrite Hfin. simpl. split; [reflexivity|]. split.
  - unfold installer_ran in *. simpl. rewrite existsb_app, Hno. simpl.
    destruct (truthy (android_project args)) eqn:Htr.
    + unfold truthy in Htr. destruct (android_project args) as [p|]; [|discriminate].
      destruct (Htrue p eq_refl Htr) as (_ & Hhead).
      destruct t as [|ev t]; [discriminate|]. inversion Hhead; subst. reflexivity.
    + destruct (Hfalse eq_refl) as [-> _]. reflexivity.
  - intros p Hp Hne. exists t. split; [reflexivity|]. now apply Htrue.
Qed.

Lemma success_exits_zero_witness :
  fst (run Demo.libs Demo.args_bad_project Demo.fs0) = 0 /\
  installer_ran (snd (run Demo.libs Demo.args_bad_project Demo.fs0)) = true.
Proof.
  pose (s1 := snd (export_to_onnx Demo.libs "best.pt" (os_path_dirname "model.tflite")
                     (start_state Demo.args_bad_project Demo.fs0))).
  pose (s2 := snd (convert_to_tflite Demo.libs "best.onnx" "model.tflite" s1)).
  pose (s3 := snd (validate_tflite Demo.libs "model.tflite" s2)).
  destruct (success_exits_zero Demo.libs Demo.args_bad_project Demo.fs0
              "best.onnx" s1 s2 s3) as (Hexit & Hran & _);
    try reflexivity.
  split; [exact Hexit | exact Hran].
Defined.

(** C1 as stated fails when the project path is given as the empty string:
    the three stages succeed and the process exits with status 0, but no copy
    is attempted although a project path was given. *)
Lemma empty_project_path_skips_copy :
  android_project Demo.args_empty_project = Some EmptyString /\
  (exists s1 s2 s3,
      export_to_onnx Demo.libs "best.pt" (os_path_dirname "model.tflite")
                     (start_state Demo.args_empty_project Demo.fs0)
        = (Ret "best.onnx", s1) /\
      convert_to_tflite Demo.libs "best.onnx" "model.tflite" s1 = (Ret true, s2) /\
      validate_tflite Demo.libs "model.tflite" s2 = (Ret true, s3)) /\
  fst (run Demo.libs Demo.args_empty_project Demo.fs0) = 0 /\
  ~ (installer_ran (snd (run Demo.libs Demo.args_empty_project Demo.fs0)) = true
     <-> is_Some (android_project Demo.args_empty_project)).
Proof.
  split; [reflexivity|]. split.
  - pose (r1 := export_to_onnx Demo.libs "best.pt" (os_path_dirname "model.tflite")
                  (start_state Demo.args_empty_project Demo.fs0)).
    pose (r2 := convert_to_tflite Demo.libs "best.onnx" "model.tflite" (snd r1)).
    pose (r3 := validate_tflite Demo.libs "model.tflite" (snd r2)).
    exists (snd r1), (snd r2), (snd r3).
    split; [|split]; vm_compute; reflexivity.
  - split; [vm_compute; reflexivity|].
    intros [_ H]. assert (Hran : installer_ran
      (snd (run Demo.libs Demo.args_empty_project Demo.fs0)) = true).
    { apply H. now exists EmptyString. }
    vm_compute in Hran. discriminate.
Qed.

(** C8.  The path the exporter returns goes straight into the conversion
    command: the call that follows the exporter's own is the conversion
    subprocess with that path as [--input], and no existence test of the path
    comes in between, whether or not anything exists there. *)
Theorem exporter_path_goes_unchecked libs args fs onnx s1 :
  os_path_exists (weights args) fs = true ->
  export_to_onnx libs (weights args) (os_path_dirname (output args))
                 (start_state args fs) = (Ret onnx, s1) ->
  exists rest,
    st_trace (snd (run libs args fs)) =
      (EvExists (weights args) :: exporter_calls (weights args) ++
       EvSubprocess (tf2onnx_cmd onnx (output args)) :: rest)%list /\
    In onnx (tf2onnx_cmd onnx (output args)).
Proof.
  intros Hw He. unfold run. rewrite main_staged by exact Hw. rewrite He.
  pose proof (export_to_onnx_returns _ _ _ _ _ _ He) as Hs1. simpl in Hs1.
  destruct (convert_to_tflite libs onnx (output args) s1) as [r2 s2] eqn:Hc.
  destruct (convert_to_tflite_returns _ _ _ _ _ _ Hc) as (t2 & Hs2 & _).
  assert (Hin : In onnx (tf2onnx_cmd onnx (output args))).
  { unfold tf2onnx_cmd. simpl. tauto. }
  destruct r2 as [[|]|e].
  - destruct (validate_tflite libs (output args) s2) as [r3 s3] eqn:Hv.
    destruct (validate_tflite_returns _ _ _ _ _ Hv) as (t3 & Hs3 & _).
    destruct r3 as [[|]|e].
    + destruct (finish_spec args s3) as (fs' & out & t & Hfin & _).
      rewrite Hfin. cbn [snd st_trace]. rewrite Hs3, Hs2, Hs1.
      eexists. split; [|exact Hin]. rewrite <- ?app_assoc. simpl. reflexivity.
    + cbn [snd st_trace]. rewrite Hs3, Hs2, Hs1.
      eexists. split; [|exact Hin]. rewrite <- ?app_assoc. simpl. reflexivity.
    + cbn [snd st_trace]. rewrite Hs3, Hs2, Hs1.
      eexists. split; [|exact Hin]. rewrite <- ?app_assoc. simpl. reflexivity.
  - cbn [snd st_trace]. rewrite Hs2, Hs1.
    eexists. split; [|exact Hin]. rewrite <- ?app_assoc. simpl. reflexivity.
  - cbn [snd st_trace]. rewrite Hs2, Hs1.
    eexists. split; [|exact Hin]. rewrite <- ?app_assoc. simpl. reflexivity.
Qed.

Lemma exporter_path_goes_unchecked_witness :
  os_path_exists "best.onnx"
    (st_fs (snd (export_to_onnx Demo.libs_export_no_file "best.pt"
                   (os_path_dirname "model.tflite")
                   (start_state Demo.args_plain Demo.fs0)))) = false /\
  exists rest,
    st_trace (snd (run Demo.libs_export_no_file Demo.args_plain Demo.fs0)) =
      (EvExists "best.pt" :: exporter_calls "best.pt" ++
       EvSubprocess (tf2onnx_cmd "best.onnx" "model.tflite") :: rest)%list.
Proof.
  split; [reflexivity|].
  destruct (exporter_path_goes_unchecked Demo.libs_export_no_file Demo.args_plain
              Demo.fs0 "best.onnx"
              (snd (export_to_onnx Demo.libs_export_no_file "best.pt"
                      (os_path_dirname "model.tflite")
                      (start_state Demo.args_plain Demo.fs0))))
    as (rest & Hrest & _); try reflexivity.
  exists rest. exact Hrest.
Defined.

(** C3.  The calls of a run come in the order exporter, converter, validator,
    installer, and the pipeline stops at the first failure: when the
    converter answers false (in particular when the conversion tool exits
    with a non-zero status) the process exits with status 1 in that very
    state, the validator and the installer never entered; when the validator
    answers false the process exits with status 1, the installer never
    entered. *)
Theorem pipeline_order_fail_fast libs args fs :
  os_path_exists (weights args) fs = true ->
  (exists t1 t2 t3 t4,
      st_trace (snd (run libs args fs)) =
        (EvExists (weights args) :: t1 ++ t2 ++ t3 ++ t4)%list /\
      Forall (fun ev => exporter_event ev = true) t1 /\
      Forall (fun ev => converter_event ev = true) t2 /\
      Forall (fun ev => validator_event ev = true) t3 /\
      Forall (fun ev => installer_event ev = true) t4) /\
  (forall onnx s1 s2,
      export_to_onnx libs (weights args) (os_path_dirname (output args))
                     (start_state args fs) = (Ret onnx, s1) ->
      convert_to_tflite libs onnx (output args) s1 = (Ret false, s2) ->
      run libs args fs = (1, s2) /\
      validator_ran s2 = false /\ installer_ran s2 = false) /\
  (forall onnx s1 result,
      export_to_onnx libs (weights args) (os_path_dirname (output args))
                     (start_state args fs) = (Ret onnx, s1) ->
      fst (subprocess_run libs (tf2onnx_cmd onnx (output args)) (st_fs s1)) = Ok result ->
      returncode result <> 0 ->
      fst (run libs args fs) = 1 /\
      validator_ran (snd (run libs args fs)) = false /\
      installer_ran (snd (run libs args fs)) = false) /\
  (forall onnx s1 s2 s3,
      export_to_onnx libs (weights args) (os_path_dirname (output args))
                     (start_state args fs) = (Ret onnx, s1) ->
      convert_to_tflite libs onnx (output args) s1 = (Ret true, s2) ->
      validate_tflite libs (output args) s2 = (Ret false, s3) ->
      run libs args fs = (1, s3) /\ installer_ran s3 = false).
Proof.
  intros Hw.
  assert (Hfail : forall onnx s1 s2,
      export_to_onnx libs (weights args) (os_path_dirname (output args))
                     (start_state args fs) = (Ret onnx, s1) ->
      convert_to_tflite libs onnx (output args) s1 = (Ret false, s2) ->
      run libs args fs = (1, s2) /\
      validator_ran s2 = false /\ installer_ran s2 = false).
  { intros onnx s1 s2 He Hc.
    destruct (validate_tflite libs (output args) s2) as [r3 s3] eqn:Hv.
    destruct (no_installer_before_finish libs args fs onnx s1 _ s2 _ s3 He Hc Hv)
      as (_ & Hi2 & _ & _ & Hv2).
    unfold run. rewrite main_staged by exact Hw. rewrite He, Hc. auto. }
  split; [|split; [exact Hfail|split]].
  - unfold run. rewrite main_staged by exact Hw.
    destruct (export_to_onnx libs (weights args) (os_path_dirname (output args))
                (start_state args fs)) as [r1 s1] eqn:He.
    destruct r1 as [onnx|e].
    2:{ destruct (export_to_onnx_cases libs (weights args)
                    (os_path_dirname (output args)) (start_state args fs))
          as [[e' He'] | (Y & m & fs1 & p & fs2 & _ & _ & _ & Hok)]; [|congruence].
        destruct (export_to_onnx_raises libs _ (os_path_dirname (output args)) _ e' He')
          as (st' & Hres & _ & t & Ht & Hpre & _).
        rewrite He in Hres. inversion Hres; subst.
        exists t, [], [], []. cbn [snd]. rewrite Ht. simpl.
        rewrite !app_nil_r. split; [reflexivity|].
        split; [|repeat constructor].
        eapply prefix_Forall; [exact Hpre | apply exporter_calls_events]. }
    pose proof (export_to_onnx_returns _ _ _ _ _ _ He) as Hs1. simpl in Hs1.
    destruct (convert_to_tflite libs onnx (output args) s1) as [r2 s2] eqn:Hc.
    destruct (convert_to_tflite_returns _ _ _ _ _ _ Hc) as (t2 & Hs2 & Ht2).
    assert (Hconv : Forall (fun ev => converter_event ev = true)
                      (EvSubprocess (tf2onnx_cmd onnx (output args)) :: t2)).
    { constructor; [reflexivity | exact Ht2]. }
    assert (Hstop2 : st_trace s2 =
              (EvExists (weights args) :: exporter_calls (weights args) ++
               (EvSubprocess (tf2onnx_cmd onnx (output args)) :: t2) ++ [] ++ [])%list).
    { rewrite Hs2, Hs1. simpl. now rewrite !app_nil_r. }
    destruct r2 as [[|]|e].
    + destruct (validate_tflite libs (output args) s2) as [r3 s3] eqn:Hv.
      destruct (validate_tflite_returns _ _ _ _ _ Hv) as (t3 & Hs3 & Ht3).
      assert (Hval : Forall (fun ev => validator_event ev = true)
                       (EvImport "tensorflow" :: t3)).
      { constructor; [reflexivity | exact Ht3]. }
      assert (Hstop3 : st_trace s3 =
                (EvExists (weights args) :: exporter_calls (weights args) ++
                 (EvSubprocess (tf2onnx_cmd onnx (output args)) :: t2) ++
                 (EvImport "tensorflow" :: t3) ++ [])%list).
      { rewrite Hs3, Hs2, Hs1. simpl. rewrite <- ?app_assoc. simpl.
        now rewrite !app_nil_r. }
      destruct r3 as [[|]|e].
      * destruct (finish_spec args s3) as (fs' & out & t & Hfin & Hall & _).
        rewrite Hfin. cbn [snd st_trace].
        exists (exporter_calls (weights args)),
               (EvSubprocess (tf2onnx_cmd onnx (output args)) :: t2),
               (EvImport "tensorflow" :: t3), t.
        split.
        { rewrite Hs3, Hs2, Hs1. simpl. rewrite <- ?app_assoc. simpl. reflexivity. }
        auto using exporter_calls_events.
      * exists (exporter_calls (weights args)),
               (EvSubprocess (tf2onnx_cmd onnx (output args)) :: t2),
               (EvImport "tensorflow" :: t3), [].
        cbn [snd]. split; [exact Hstop3|].
        auto using exporter_calls_events.
      * exists (exporter_calls (weights args)),
               (EvSubprocess (tf2onnx_cmd onnx (output args)) :: t2),
               (EvImport "tensorflow" :: t3), [].
        cbn [snd]. split; [exact Hstop3|].
        auto using exporter_calls_events.
    + exists (exporter_calls (weights args)),
             (EvSubprocess (tf2onnx_cmd onnx (output args)) :: t2), [], [].
      cbn [snd]. split; [exact Hstop2|].
      auto using exporter_calls_events.
    + exists (exporter_calls (weights args)),
             (EvSubprocess (tf2onnx_cmd onnx (output args)) :: t2), [], [].
      cbn [snd]. split; [exact Hstop2|].
      auto using exporter_calls_events.
  - intros onnx s1 result He Hrun Hrc.
    destruct (convert_to_tflite_spec libs onnx (output args) s1) as (out & t & Hc & _).
    rewrite Hrun in Hc. unfold conversion_succeeded in Hc.
    apply Z.eqb_neq in Hrc. rewrite Hrc in Hc. simpl in Hc.
    destruct (Hfail onnx s1 _ He Hc) as (Hr & Hv & Hi).
    rewrite Hr. auto.
  - intros onnx s1 s2 s3 He Hc Hv.
    destruct (no_installer_before_finish libs args fs onnx s1 _ s2 _ s3 He Hc Hv)
      as (_ & _ & Hi3 & _).
    unfold run. rewrite main_staged by exact Hw. rewrite He, Hc, Hv. auto.
Qed.

Lemma pipeline_order_fail_fast_witness :
  fst (run Demo.libs_tool_fails Demo.args_project Demo.fs0) = 1 /\
  validator_ran (snd (run Demo.libs_tool_fails Demo.args_project Demo.fs0)) = false /\
  installer_ran (snd (run Demo.libs_tool_fails Demo.args_project Demo.fs0)) = false.
Proof.
  destruct (pipeline_order_fail_fast Demo.libs_tool_fails Demo.args_project Demo.fs0)
    as (_ & _ & Htool & _); [vm_compute; reflexivity|].
  apply (Htool "best.onnx"
           (snd (export_to_onnx Demo.libs_tool_fails "best.pt"
                   (os_path_dirname "model.tflite")
                   (start_state Demo.args_project Demo.fs0)))
           (mkCompleted 1 EmptyString "unsupported operator")).
  - vm_compute; reflexivity.
  - vm_compute; reflexivity.
  - discriminate.
Defined.

Lemma target_not_assets proj : target_path_of proj <> assets_dir_of proj.
Proof.
  rewrite target_path_of_shape, assets_dir_of_shape. intros H.
  injection H as H. apply (f_equal (@length string)) in H.
  rewrite !length_app in H. simpl in H. lia.
Qed.

Lemma fs_stat_kept tflite fs fs' c :
  (forall q n, fs_lookup fs q = Some n -> fs_lookup fs' q = Some n) ->
  fs_stat tflite fs = Some (File c) -> fs_stat tflite fs' = Some (File c).
Proof.
  intros Hkeep. unfold fs_stat. destruct tflite; [discriminate|]. apply Hkeep.
Qed.







(** * Further properties of the script *)

(** ** The ways a run can end *)

Lemma run_cases libs args fs :
  (os_path_exists (weights args) fs = false /\ fst (run libs args fs) = 1) \/
  (os_path_exists (weights args) fs = true /\
   ((exists s1,
        export_to_onnx libs (weights args) (os_path_dirname (output args))
                       (start_state args fs) = (Raise (SystemExit 1), s1) /\
        main libs args (initial_state fs) = (Raise (SystemExit 1), s1)) \/
    (exists onnx s1 s2,
        export_to_onnx libs (weights args) (os_path_dirname (output args))
                       (start_state args fs) = (Ret onnx, s1) /\
        convert_to_tflite libs onnx (output args) s1 = (Ret false, s2) /\
        main libs args (initial_state fs) = (Raise (SystemExit 1), s2)) \/
    (exists onnx s1 s2 s3,
        export_to_onnx libs (weights args) (os_path_dirname (output args))
                       (start_state args fs) = (Ret onnx, s1) /\
        convert_to_tflite libs onnx (output args) s1 = (Ret true, s2) /\
        validate_tflite libs (output args) s2 = (Ret false, s3) /\
        main libs args (initial_state fs) = (Raise (SystemExit 1), s3)) \/
    (exists onnx s1 s2 s3 s4,
        export_to_onnx libs (weights args) (os_path_dirname (output args))
                       (start_state args fs) = (Ret onnx, s1) /\
        convert_to_tflite libs onnx (output args) s1 = (Ret true, s2) /\
        validate_tflite libs (output args) s2 = (Ret true, s3) /\
        finish args s3 = (Ret tt, s4) /\
        main libs args (initial_state fs) = (Ret tt, s4)))).
Proof.
  destruct (os_path_exists (weights args) fs) eqn:Hw.
  2:{ left. split; [reflexivity|]. unfold run.
      now rewrite main_missing_weights. }
  right. split; [reflexivity|]. rewrite main_staged by exact Hw.
  destruct (export_to_onnx_cases libs (weights args) (os_path_dirname (output args))
              (start_state args fs))
    as [[e He] | (Y & m & fs1 & onnx & fs2 & _ & _ & _ & Hok)].
  { destruct (export_to_onnx_raises libs _ (os_path_dirname (output args)) _ e He)
      as (s1 & Hres & _).
    left. exists s1. rewrite Hres. auto. }
  right. rewrite Hok.
  match goal with |- context [convert_to_tflite libs onnx (output args) ?s] =>
    set (s1 := s) in *
  end.
  destruct (convert_to_tflite libs onnx (output args) s1) as [r2 s2] eqn:Hc.
  assert (Hb : exists b, r2 = Ret b).
  { destruct (convert_to_tflite_spec libs onnx (output args) s1) as (out & t & Hs & _).
    rewrite Hs in Hc. inversion Hc. eauto. }
  destruct Hb as [ok ->].
  destruct ok.
  2:{ left. exists onnx, s1, s2. auto. }
  right.
  destruct (validate_tflite_total libs (output args) s2) as (b & s3 & Hv).
  rewrite Hv. destruct b.
  2:{ left. exists onnx, s1, s2, s3. auto. }
  right.
  destruct (finish_spec args s3) as (fs' & out' & t' & Hfin & _).
  exists onnx, s1, s2, s3. eexists. rewrite Hfin. auto.
Qed.

(** X1.  Once [parser.parse_args()] has returned, a run ends in one of two
    ways: [main] returns (exit status 0) or [sys.exit(1)] is raised; no
    exception of the stages escapes [main], so from the parsed command line
    on the exit status is 0 or 1. *)
Theorem run_exit_status_is_0_or_1 libs args fs :
  (fst (main libs args (initial_state fs)) = Ret tt \/
   fst (main libs args (initial_state fs)) = Raise (SystemExit 1)) /\
  (fst (run libs args fs) = 0 \/ fst (run libs args fs) = 1).
Proof.
  assert (H : fst (main libs args (initial_state fs)) = Ret tt \/
              fst (main libs args (initial_state fs)) = Raise (SystemExit 1)).
  { destruct (os_path_exists (weights args) fs) eqn:Hw.
    2:{ right. now rewrite main_missing_weights. }
    destruct (run_cases libs args fs) as [[Hw' _] | [_ Hc]]; [congruence|].
    destruct Hc as [(s1 & _ & Hm) | [(o & s1 & s2 & _ & _ & Hm)
                  | [(o & s1 & s2 & s3 & _ & _ & _ & Hm)
                  | (o & s1 & s2 & s3 & s4 & _ & _ & _ & _ & Hm)]]];
      rewrite Hm; auto. }
  split; [exact H|]. unfold run.
  destruct (main libs args (initial_state fs)) as [r st]. simpl in *.
  destruct H as [-> | ->]; auto.
Qed.

(** X2.  The exit status is 0 exactly when the weights file exists, the
    exporter returns a path, and the converter and the validator both answer
    true; the outcome of the copy into the application tree plays no part. *)
Theorem run_exits_zero_iff libs args fs :
  fst (run libs args fs) = 0 <->
  (os_path_exists (weights args) fs = true /\
   exists onnx s1 s2 s3,
     export_to_onnx libs (weights args) (os_path_dirname (output args))
                    (start_state args fs) = (Ret onnx, s1) /\
     convert_to_tflite libs onnx (output args) s1 = (Ret true, s2) /\
     validate_tflite libs (output args) s2 = (Ret true, s3)).
Proof.
  split.
  - intros Hz.
    destruct (run_cases libs args fs) as [[_ H1] | [Hw Hc]]; [rewrite H1 in Hz; discriminate|].
    split; [exact Hw|]. unfold run in Hz.
    destruct Hc as [(s1 & _ & Hm) | [(o & s1 & s2 & _ & _ & Hm)
                  | [(o & s1 & s2 & s3 & _ & _ & _ & Hm)
                  | (o & s1 & s2 & s3 & s4 & He & Hc & Hv & _ & Hm)]]];
      rewrite Hm in Hz; simpl in Hz; try discriminate.
    exists o, s1, s2, s3. auto.
  - intros (Hw & o & s1 & s2 & s3 & He & Hc & Hv).
    unfold run. rewrite main_staged by exact Hw. rewrite He, Hc, Hv.
    destruct (finish_spec args s3) as (fs' & out & t & Hfin & _).
    now rewrite Hfin.
Qed.

Lemma run_exits_zero_iff_witness :
  fst (run Demo.libs Demo.args_plain Demo.fs0) = 0.
Proof.
  apply (run_exits_zero_iff Demo.libs Demo.args_plain Demo.fs0).
  split; [vm_compute; reflexivity|].
  pose (r1 := export_to_onnx Demo.libs "best.pt" (os_path_dirname "model.tflite")
                (start_state Demo.args_plain Demo.fs0)).
  pose (r2 := convert_to_tflite Demo.libs "best.onnx" "model.tflite" (snd r1)).
  pose (r3 := validate_tflite Demo.libs "model.tflite" (snd r2)).
  exists "best.onnx", (snd r1), (snd r2), (snd r3).
  split; [|split]; vm_compute; reflexivity.
Defined.

(** X3.  With an empty output path the run cannot succeed: [os.path.exists]
    of the empty string is false, so whatever the conversion tool does the
    converter answers false, and the exit status is 1. *)
Theorem empty_output_never_succeeds libs args fs :
  output args = EmptyString ->
  fst (run libs args fs) = 1 /\
  forall onnx st, fst (convert_to_tflite libs onnx (output args) st) = Ret false.
Proof.
  intros Hout.
  assert (Hconv : forall onnx st,
             fst (convert_to_tflite libs onnx (output args) st) = Ret false).
  { intros onnx st.
    destruct (convert_to_tflite_spec libs onnx (output args) st) as (out & t & Hc & _).
    rewrite Hc. simpl. rewrite Hout. unfold conversion_succeeded.
    destruct (fst (subprocess_run libs (tf2onnx_cmd onnx EmptyString) (st_fs st)));
      [|reflexivity].
    unfold os_path_exists. simpl. now rewrite andb_false_r. }
  split; [|exact Hconv].
  destruct (run_cases libs args fs) as [[_ H1] | [Hw Hc]]; [exact H1|].
  unfold run.
  destruct Hc as [(s1 & _ & Hm) | [(o & s1 & s2 & _ & _ & Hm)
                | [(o & s1 & s2 & s3 & _ & Hc & _ & Hm)
                | (o & s1 & s2 & s3 & s4 & _ & Hc & _ & _ & Hm)]]];
    try (rewrite Hm; reflexivity);
    specialize (Hconv o s1); rewrite Hc in Hconv; discriminate.
Qed.

Lemma empty_output_never_succeeds_witness :
  fst (run Demo.libs Demo.args_no_output Demo.fs0) = 1.
Proof.
  apply (empty_output_never_succeeds Demo.libs Demo.args_no_output Demo.fs0).
  reflexivity.
Defined.

(** ** The validator, line by line *)

Lemma validate_tflite_success libs p st new i fs1 ins outs d shape dtype :
  tf_lite_Interpreter libs = Ok new ->
  new p (st_fs st) = (Ok i, fs1) ->
  allocate_tensors i = Ok tt ->
  get_input_details i = Ok ins ->
  get_output_details i = Ok outs ->
  ins !! 0%nat = Some d ->
  d !! "shape" = Some shape ->
  d !! "dtype" = Some dtype ->
  validate_tflite libs p st =
    (Ret true,
     {| st_fs := fs1;
        st_stdout := (st_stdout st ++
                      [(nl ++ "[3/3] Validating TFLite model...")%string;
                       "✓ Model validated successfully!";
                       (nl ++ "Model Info:")%string;
                       ("  Input shape: " ++ shape)%string;
                       ("  Input type: " ++ dtype)%string;
                       ("  Number of outputs: " ++ pretty (length outs))%string])%list;
        st_trace := (st_trace st ++ validator_calls p)%list |}).
Proof.
  intros Hi Hn Ha Hin Hout Hd Hsh Hdt.
  unfold validate_tflite, validator_calls. destruct st as [fs out tr]; simpl in *.
  unfold list_index, dict_get. unmonad.
  rewrite Hi; simpl. rewrite Hn; simpl. rewrite Ha; simpl.
  rewrite Hin; simpl. rewrite Hout; simpl.
  rewrite Hd; simpl. rewrite Hsh; simpl. rewrite Hdt; simpl.
  now rewrite <- !app_assoc.
Qed.

Lemma validate_tflite_true_inv libs p st :
  fst (validate_tflite libs p st) = Ret true ->
  exists new i fs1 ins outs d shape dtype,
    tf_lite_Interpreter libs = Ok new /\
    new p (st_fs st) = (Ok i, fs1) /\
    allocate_tensors i = Ok tt /\
    get_input_details i = Ok ins /\
    get_output_details i = Ok outs /\
    ins !! 0%nat = Some d /\
    d !! "shape" = Some shape /\
    d !! "dtype" = Some dtype.
Proof.
  intros Ht.
  assert (Hno : forall e, ~ validator_raises libs p (st_fs st) e).
  { intros e He. destruct (validate_tflite_raises _ _ _ _ He) as (st' & H & _).
    rewrite H in Ht. discriminate. }
  destruct (tf_lite_Interpreter libs) as [new|e] eqn:Hi.
  2:{ exfalso. apply (Hno e). now apply raises_at_tf_import. }
  destruct (new p (st_fs st)) as [[i|e] fs1] eqn:Hn.
  2:{ exfalso. apply (Hno e). eapply raises_at_interpreter; eauto. }
  destruct (allocate_tensors i) as [[]|e] eqn:Ha.
  2:{ exfalso. apply (Hno e). eapply raises_at_allocate; eauto. }
  destruct (get_input_details i) as [ins|e] eqn:Hin.
  2:{ exfalso. apply (Hno e). eapply raises_at_input_details; eauto. }
  destruct (get_output_details i) as [outs|e] eqn:Hout.
  2:{ exfalso. apply (Hno e). eapply raises_at_output_details; eauto. }
  destruct (read_metadata ins) as [e|] eqn:Hm.
  { exfalso. apply (Hno e). eapply raises_at_metadata; eauto. }
  unfold read_metadata in Hm.
  destruct (ins !! 0%nat) as [d|] eqn:Hd; [|discriminate].
  destruct (d !! "shape") as [sh|] eqn:Hsh; [|discriminate].
  destruct (d !! "dtype") as [dt|] eqn:Hdt; [|discriminate].
  exists new, i, fs1, ins, outs, d, sh, dt. repeat split; auto.
Qed.

Lemma validate_tflite_stdout libs p st :
  exists out,
    st_stdout (snd (validate_tflite libs p st)) =
      (st_stdout st ++ (nl ++ "[3/3] Validating TFLite model...")%string :: out)%list.
Proof.
  unfold validate_tflite. destruct st as [fs out0 tr]; simpl.
  unmonad.
  destruct (tf_lite_Interpreter libs) as [new|e]; simpl.
  2:{ eexists. now rewrite <- !app_assoc. }
  destruct (new p fs) as [[i|e] fs1]; simpl.
  2:{ eexists. now rewrite <- !app_assoc. }
  destruct (allocate_tensors i) as [[]|e]; simpl.
  2:{ eexists. now rewrite <- !app_assoc. }
  destruct (get_input_details i) as [ins|e]; simpl.
  2:{ eexists. now rewrite <- !app_assoc. }
  destruct (get_output_details i) as [outs|e]; simpl.
  2:{ eexists. now rewrite <- !app_assoc. }
  unfold list_index, dict_get.
  destruct (ins !! 0%nat) as [d|]; unmonad;
    [|eexists; rewrite <- !app_assoc; simpl; reflexivity].
  destruct (d !! "shape") as [sh|]; unmonad;
    [|eexists; rewrite <- !app_assoc; simpl; reflexivity].
  destruct (d !! "dtype") as [dt|]; unmonad;
    eexists; rewrite <- !app_assoc; simpl; reflexivity.
Qed.

(** X4.  The validator answers true exactly when nothing it does raises:
    tensorflow imports, the interpreter loads the binary and allocates its
    tensors, both descriptor lists are returned, and the first input
    descriptor has a ['shape'] and a ['dtype'] entry. *)
Theorem validate_succeeds_iff libs p st :
  fst (validate_tflite libs p st) = Ret true <->
  exists new i fs1 ins outs d shape dtype,
    tf_lite_Interpreter libs = Ok new /\
    new p (st_fs st) = (Ok i, fs1) /\
    allocate_tensors i = Ok tt /\
    get_input_details i = Ok ins /\
    get_output_details i = Ok outs /\
    ins !! 0%nat = Some d /\
    d !! "shape" = Some shape /\
    d !! "dtype" = Some dtype.
Proof.
  split; [apply validate_tflite_true_inv|].
  intros (new & i & fs1 & ins & outs & d & sh & dt &
          Hi & Hn & Ha & Hin & Hout & Hd & Hsh & Hdt).
  now rewrite (validate_tflite_success libs p st new i fs1 ins outs d sh dt).
Qed.

Lemma validate_succeeds_iff_witness :
  fst (validate_tflite Demo.libs "model.tflite" (initial_state Demo.fs_converted)) = Ret true.
Proof.
  apply (validate_succeeds_iff Demo.libs "model.tflite" (initial_state Demo.fs_converted)).
  exists (fun _ fs => (Ok Demo.interpreter, fs)), Demo.interpreter, Demo.fs_converted,
         [Demo.input0], [Demo.input0], Demo.input0,
         "[  1   3 640 640]", "<class 'numpy.float32'>".
  repeat split; vm_compute; reflexivity.
Defined.

(** X5.  The model report reads the first input descriptor only, and of the
    outputs only their number: whatever further inputs the model has, whatever
    its output descriptors hold, and even with no output at all, the validator
    prints the six lines below and answers true; the file system is the one
    the interpreter's constructor left. *)
Theorem validate_reads_first_input_only libs p st new i fs1 d more_inputs outs shape dtype :
  tf_lite_Interpreter libs = Ok new ->
  new p (st_fs st) = (Ok i, fs1) ->
  allocate_tensors i = Ok tt ->
  get_input_details i = Ok (d :: more_inputs) ->
  get_output_details i = Ok outs ->
  d !! "shape" = Some shape ->
  d !! "dtype" = Some dtype ->
  fst (validate_tflite libs p st) = Ret true /\
  st_fs (snd (validate_tflite libs p st)) = fs1 /\
  st_stdout (snd (validate_tflite libs p st)) =
    (st_stdout st ++
     [(nl ++ "[3/3] Validating TFLite model...")%string;
      "✓ Model validated successfully!";
      (nl ++ "Model Info:")%string;
      ("  Input shape: " ++ shape)%string;
      ("  Input type: " ++ dtype)%string;
      ("  Number of outputs: " ++ pretty (length outs))%string])%list.
Proof.
  intros Hi Hn Ha Hin Hout Hsh Hdt.
  rewrite (validate_tflite_success libs p st new i fs1 (d :: more_inputs) outs d shape dtype)
    by auto.
  auto.
Qed.

Lemma validate_reads_first_input_only_witness :
  List.last (st_stdout (snd (validate_tflite Demo.libs_no_outputs "model.tflite"
                                (initial_state Demo.fs_converted)))) EmptyString
    = "  Number of outputs: 0".
Proof.
  destruct (validate_reads_first_input_only Demo.libs_no_outputs "model.tflite"
              (initial_state Demo.fs_converted)
              (fun _ fs => (Ok Demo.interpreter_no_outputs, fs))
              Demo.interpreter_no_outputs Demo.fs_converted
              Demo.input0 [∅] [] "[  1   3 640 640]" "<class 'numpy.float32'>")
    as (_ & _ & Hout).
  1-7: vm_compute; reflexivity.
  rewrite Hout. reflexivity.
Defined.

(** X6.  The success line comes before the metadata is read: when both
    descriptor lists are returned but the first input descriptor cannot be
    read (no input at all, or no ['shape'], or no ['dtype']), the validator
    has already printed "Model validated successfully!" and the report
    header; it then prints at most one report line, the failure line, and
    answers false. *)
Theorem validate_announces_success_before_failing libs p st new i fs1 ins outs e :
  tf_lite_Interpreter libs = Ok new ->
  new p (st_fs st) = (Ok i, fs1) ->
  allocate_tensors i = Ok tt ->
  get_input_details i = Ok ins ->
  get_output_details i = Ok outs ->
  read_metadata ins = Some e ->
  exists report,
    validate_tflite libs p st =
      (Ret false,
       {| st_fs := fs1;
          st_stdout := (st_stdout st ++
                        [(nl ++ "[3/3] Validating TFLite model...")%string;
                         "✓ Model validated successfully!";
                         (nl ++ "Model Info:")%string] ++
                        report ++
                        [("✗ Model validation failed: " ++ exc_msg e)%string])%list;
          st_trace := (st_trace st ++ validator_calls p)%list |}) /\
    (length report <= 1)%nat.
Proof.
  intros Hi Hn Ha Hin Hout Hm.
  unfold validate_tflite, validator_calls. destruct st as [fs out tr]; simpl in *.
  unfold list_index, dict_get, read_metadata in *. unmonad.
  rewrite Hi; simpl. rewrite Hn; simpl. rewrite Ha; simpl.
  rewrite Hin; simpl. rewrite Hout; simpl.
  destruct (ins !! 0%nat) as [d|]; simpl.
  - destruct (d !! "shape") as [sh|]; simpl.
    + destruct (d !! "dtype") as [dt|]; simpl; [discriminate|].
      injection Hm as <-. exists [("  Input shape: " ++ sh)%string].
      split; [|simpl; lia]. simpl. now rewrite <- !app_assoc.
    + injection Hm as <-. exists []. split; [|simpl; lia].
      simpl. now rewrite <- !app_assoc.
  - injection Hm as <-. exists []. split; [|simpl; lia].
    simpl. now rewrite <- !app_assoc.
Qed.

Lemma validate_announces_success_before_failing_witness :
  fst (validate_tflite Demo.libs_no_dtype "model.tflite"
         (initial_state Demo.fs_converted)) = Ret false /\
  In "✓ Model validated successfully!"
     (st_stdout (snd (validate_tflite Demo.libs_no_dtype "model.tflite"
                        (initial_state Demo.fs_converted)))).
Proof.
  destruct (validate_announces_success_before_failing Demo.libs_no_dtype "model.tflite"
              (initial_state Demo.fs_converted)
              (fun _ fs => (Ok Demo.interpreter_no_dtype, fs))
              Demo.interpreter_no_dtype Demo.fs_converted
              [Demo.input_no_dtype] [Demo.input0] (mkExc "KeyError" "'dtype'"))
    as (report & Hres & Hlen).
  1-6: vm_compute; reflexivity.
  rewrite Hres. split; [reflexivity|]. simpl. right. left. reflexivity.
Defined.

(** ** The converter, line by line *)

Lemma convert_to_tflite_true_inv libs onnx tflite st s2 :
  convert_to_tflite libs onnx tflite st = (Ret true, s2) ->
  st_fs s2 = snd (subprocess_run libs (tf2onnx_cmd onnx tflite) (st_fs st)) /\
  st_trace s2 = (st_trace st ++ converter_calls onnx tflite)%list /\
  exists line,
    st_stdout s2 = (st_stdout st ++
                    [(nl ++ "[2/3] Converting ONNX to TensorFlow Lite...")%string;
                     line])%list.
Proof.
  unfold convert_to_tflite, converter_calls. destruct st as [fs out0 tr]; simpl.
  unmonad.
  destruct (subprocess_run libs (tf2onnx_cmd onnx tflite) fs) as [[r|e] fs'] eqn:Hrun;
    simpl; [|discriminate].
  destruct (returncode r =? 0) eqn:Hrc; simpl; [|discriminate].
  destruct (os_path_exists tflite fs') eqn:Hex; simpl; [|discriminate].
  destruct (exists_getsize _ _ Hex) as [n Hn]. rewrite Hn; simpl.
  intros H. injection H as <-. simpl.
  split; [reflexivity|]. split; [now rewrite <- !app_assoc|].
  eexists. now rewrite <- !app_assoc.
Qed.

(** X7.  When the conversion tool exits with a non-zero status the converter
    prints the failure header and the tool's captured standard error, and
    answers false having made no other call: the output path is not looked
    at, so a file already standing there does not count, and the tool's
    captured standard output is dropped. *)
Theorem convert_nonzero_exit_report libs onnx tflite st result fs' :
  subprocess_run libs (tf2onnx_cmd onnx tflite) (st_fs st) = (Ok result, fs') ->
  returncode result <> 0 ->
  convert_to_tflite libs onnx tflite st =
    (Ret false,
     {| st_fs := fs';
        st_stdout := (st_stdout st ++
                      [(nl ++ "[2/3] Converting ONNX to TensorFlow Lite...")%string;
                       "✗ TFLite conversion failed:";
                       stderr result])%list;
        st_trace := (st_trace st ++ [EvSubprocess (tf2onnx_cmd onnx tflite)])%list |}).
Proof.
  intros Hrun Hrc. apply Z.eqb_neq in Hrc.
  unfold convert_to_tflite. destruct st as [fs out0 tr]; simpl in *.
  unmonad. rewrite Hrun; simpl. rewrite Hrc; simpl.
  now rewrite <- !app_assoc.
Qed.

Lemma convert_nonzero_exit_report_witness :
  st_stdout (snd (convert_to_tflite Demo.libs_tool_fails "best.onnx" "model.tflite"
                    (initial_state Demo.fs_converted))) =
    [(nl ++ "[2/3] Converting ONNX to TensorFlow Lite...")%string;
     "✗ TFLite conversion failed:";
     "unsupported operator"] /\
  os_path_exists "model.tflite" Demo.fs_converted = true.
Proof.
  split; [|vm_compute; reflexivity].
  rewrite (convert_nonzero_exit_report Demo.libs_tool_fails "best.onnx" "model.tflite"
             (initial_state Demo.fs_converted)
             (mkCompleted 1 EmptyString "unsupported operator") Demo.fs_converted).
  - reflexivity.
  - reflexivity.
  - discriminate.
Defined.

(** X8.  When [subprocess.run] itself raises (the interpreter of the tool is
    not found, say) the converter prints the exception after the failure
    header, on the same line, and answers false; nothing else is called. *)
Theorem convert_tool_raises_report libs onnx tflite st e fs' :
  subprocess_run libs (tf2onnx_cmd onnx tflite) (st_fs st) = (Err e, fs') ->
  convert_to_tflite libs onnx tflite st =
    (Ret false,
     {| st_fs := fs';
        st_stdout := (st_stdout st ++
                      [(nl ++ "[2/3] Converting ONNX to TensorFlow Lite...")%string;
                       ("✗ TFLite conversion failed: " ++ exc_msg e)%string])%list;
        st_trace := (st_trace st ++ [EvSubprocess (tf2onnx_cmd onnx tflite)])%list |}).
Proof.
  intros Hrun.
  unfold convert_to_tflite. destruct st as [fs out0 tr]; simpl in *.
  unmonad. rewrite Hrun; simpl.
  now rewrite <- !app_assoc.
Qed.

Lemma convert_tool_raises_report_witness :
  fst (convert_to_tflite Demo.libs_tool_missing "best.onnx" "model.tflite"
         (initial_state Demo.fs0)) = Ret false.
Proof.
  rewrite (convert_tool_raises_report Demo.libs_tool_missing "best.onnx" "model.tflite"
             (initial_state Demo.fs0)
             (mkExc "FileNotFoundError" "[Errno 2] No such file or directory: 'python'")
             Demo.fs0).
  - reflexivity.
  - reflexivity.
Defined.

(** ** What a run prints and calls *)

Lemma export_to_onnx_stdout libs w d st :
  exists out,
    st_stdout (snd (export_to_onnx libs w d st)) =
      (st_stdout st ++ (nl ++ "[1/3] Exporting " ++ w ++ " to ONNX...")%string :: out)%list.
Proof.
  destruct (export_to_onnx_cases libs w d st)
    as [[e He] | (Y & m & fs1 & p & fs2 & _ & _ & _ & Hok)].
  - destruct (export_to_onnx_raises libs w d st e He) as (st' & Hres & Hout & _).
    rewrite Hres. simpl. rewrite Hout. eauto.
  - rewrite Hok. simpl. eauto.
Qed.

Lemma finish_output args st :
  exists fs' out t,
    finish args st =
      (Ret tt, {| st_fs := fs';
                  st_stdout := (st_stdout st ++ out ++ closing_lines args)%list;
                  st_trace := (st_trace st ++ t)%list |}) /\
    length out = (if truthy (android_project args) then 1 else 0)%nat /\
    (truthy (android_project args) = false -> t = [] /\ fs' = st_fs st) /\
    (forall project, android_project args = Some project ->
                     str_nonempty project = true ->
                     t `prefix_of` installer_calls (output args) project /\
                     head t = Some (EvMkdir (assets_dir_of project) true true)).
Proof.
  unfold finish. destruct st as [fs out0 tr].
  destruct (android_project args) as [project|] eqn:Hp; cbn [truthy].
  - destruct (str_nonempty project) eqn:Hne.
    + destruct (copy_to_android_assets_total (output args) project (mkState fs out0 tr))
        as (b & fs' & line & t & Hcopy & Hpre & Hhead).
      unfold when. unfold bind at 1. unfold bind at 1. rewrite Hcopy.
      exists fs', [line], t. split.
      * unmonad. unfold closing_lines. now rewrite <- !app_assoc.
      * split; [reflexivity|]. split; [discriminate|].
        intros project' Heq _. inversion Heq; subst. auto.
    + exists fs, [], []. split.
      * unmonad. unfold closing_lines. now rewrite <- !app_assoc, app_nil_r.
      * split; [reflexivity|]. split; [auto|].
        intros project' Heq Hne'. inversion Heq; subst. congruence.
  - exists fs, [], []. split.
    + unmonad. unfold closing_lines. now rewrite <- !app_assoc, app_nil_r.
    + split; [reflexivity|]. split; [auto|]. discriminate.
Qed.

(** X9.  The calls of a run whose three stages succeed, one by one: the
    existence test of the weights, the exporter's three calls, the conversion
    subprocess, one existence test and one size query of the output path, the
    validator's five calls on that same path, then the installer's calls if
    and only if the project path is true.  Nothing is called twice and the
    weights are not looked at again. *)
Theorem successful_run_trace libs args fs onnx s1 s2 s3 :
  os_path_exists (weights args) fs = true ->
  export_to_onnx libs (weights args) (os_path_dirname (output args))
                 (start_state args fs) = (Ret onnx, s1) ->
  convert_to_tflite libs onnx (output args) s1 = (Ret true, s2) ->
  validate_tflite libs (output args) s2 = (Ret true, s3) ->
  exists t,
    st_trace (snd (run libs args fs)) =
      (EvExists (weights args) :: exporter_calls (weights args) ++
       converter_calls onnx (output args) ++ validator_calls (output args) ++ t)%list /\
    (truthy (android_project args) = false -> t = []) /\
    (forall project,
        android_project args = Some project -> str_nonempty project = true ->
        t `prefix_of` installer_calls (output args) project /\
        head t = Some (EvMkdir (assets_dir_of project) true true)).
Proof.
  intros Hw He Hc Hv.
  pose proof (export_to_onnx_returns _ _ _ _ _ _ He) as Hs1. simpl in Hs1.
  destruct (convert_to_tflite_true_inv _ _ _ _ _ Hc) as (_ & Hs2 & _).
  assert (Hs3 : st_trace s3 = (st_trace s2 ++ validator_calls (output args))%list).
  { assert (Ht : fst (validate_tflite libs (output args) s2) = Ret true)
      by now rewrite Hv.
    destruct (validate_tflite_true_inv _ _ _ Ht)
      as (new & i & fs1 & ins & outs & d & sh & dt &
          Hi & Hn & Ha & Hin & Hout & Hd & Hsh & Hdt).
    rewrite (validate_tflite_success libs _ s2 new i fs1 ins outs d sh dt) in Hv by auto.
    injection Hv as <-. reflexivity. }
  unfold run. rewrite main_staged by exact Hw. rewrite He, Hc, Hv.
  destruct (finish_output args s3) as (fs' & out & t & Hfin & _ & Hfalse & Htrue).
  rewrite Hfin. cbn [snd st_trace]. exists t. split.
  - rewrite Hs3, Hs2, Hs1. rewrite <- ?app_assoc. reflexivity.
  - split; [|exact Htrue]. intros Hf. now destruct (Hfalse Hf).
Qed.

Lemma successful_run_trace_witness :
  st_trace (snd (run Demo.libs Demo.args_plain Demo.fs0)) =
    (EvExists "best.pt" :: exporter_calls "best.pt" ++
     converter_calls "best.onnx" "model.tflite" ++ validator_calls "model.tflite")%list.
Proof.
  pose (s1 := snd (export_to_onnx Demo.libs "best.pt" (os_path_dirname "model.tflite")
                     (start_state Demo.args_plain Demo.fs0))).
  pose (s2 := snd (convert_to_tflite Demo.libs "best.onnx" "model.tflite" s1)).
  pose (s3 := snd (validate_tflite Demo.libs "model.tflite" s2)).
  destruct (successful_run_trace Demo.libs Demo.args_plain Demo.fs0 "best.onnx" s1 s2 s3)
    as (t & Ht & Hnone & _).
  1-4: vm_compute; reflexivity.
  rewrite Ht, (Hnone eq_refl). reflexivity.
Defined.

(** X10.  The output of a run whose three stages succeed ends with the seven
    closing lines, the instruction to place the output file in
    [app/src/main/assets/yolo_plate_detector.tflite] among them, whether or
    not the installer has just copied it there; between the validator's
    report and the closing lines stands the one line of the installer when
    the project path is true, and nothing otherwise. *)
Theorem successful_run_closing_lines libs args fs onnx s1 s2 s3 :
  os_path_exists (weights args) fs = true ->
  export_to_onnx libs (weights args) (os_path_dirname (output args))
                 (start_state args fs) = (Ret onnx, s1) ->
  convert_to_tflite libs onnx (output args) s1 = (Ret true, s2) ->
  validate_tflite libs (output args) s2 = (Ret true, s3) ->
  exists copy_report,
    st_stdout (snd (run libs args fs)) =
      (st_stdout s3 ++ copy_report ++ closing_lines args)%list /\
    length copy_report = (if truthy (android_project args) then 1 else 0)%nat /\
    In ("1. Place " ++ output args
        ++ " in: app/src/main/assets/yolo_plate_detector.tflite")%string
       (st_stdout (snd (run libs args fs))).
Proof.
  intros Hw He Hc Hv.
  unfold run. rewrite main_staged by exact Hw. rewrite He, Hc, Hv.
  destruct (finish_output args s3) as (fs' & out & t & Hfin & Hlen & _).
  rewrite Hfin. cbn [snd st_stdout]. exists out.
  split; [reflexivity|]. split; [exact Hlen|].
  apply in_or_app. right. apply in_or_app. right.
  unfold closing_lines. simpl. tauto.
Qed.

Lemma successful_run_closing_lines_witness :
  In "1. Place model.tflite in: app/src/main/assets/yolo_plate_detector.tflite"
     (st_stdout (snd (run Demo.libs Demo.args_project Demo.fs0))).
Proof.
  pose (s1 := snd (export_to_onnx Demo.libs "best.pt" (os_path_dirname "model.tflite")
                     (start_state Demo.args_project Demo.fs0))).
  pose (s2 := snd (convert_to_tflite Demo.libs "best.onnx" "model.tflite" s1)).
  pose (s3 := snd (validate_tflite Demo.libs "model.tflite" s2)).
  destruct (successful_run_closing_lines Demo.libs Demo.args_project Demo.fs0
              "best.onnx" s1 s2 s3)
    as (report & _ & _ & Hin).
  1-4: vm_compute; reflexivity.
  exact Hin.
Defined.

(** X11.  Once the weights are found, whatever happens next, the output of
    the run opens with the banner (a rule of sixty [=], the title, the rule
    again) followed by the exporter's announcement. *)
Theorem run_output_opens_with_banner libs args fs :
  os_path_exists (weights args) fs = true ->
  exists rest,
    st_stdout (snd (run libs args fs)) =
      (banner ++
       (nl ++ "[1/3] Exporting " ++ weights args ++ " to ONNX...")%string :: rest)%list.
Proof.
  intros Hw. unfold run. rewrite main_staged by exact Hw.
  destruct (export_to_onnx_stdout libs (weights args) (os_path_dirname (output args))
              (start_state args fs)) as [o1 H1].
  destruct (export_to_onnx libs (weights args) (os_path_dirname (output args))
              (start_state args fs)) as [[onnx|e] s1]; cbn [snd] in H1.
  2:{ exists o1. exact H1. }
  destruct (convert_to_tflite_spec libs onnx (output args) s1) as (o2 & t2 & Hc & _).
  destruct (convert_to_tflite libs onnx (output args) s1) as [r2 s2].
  assert (H2 : st_stdout s2 = (st_stdout s1 ++ o2)%list).
  { injection Hc as _ ->. reflexivity. }
  assert (Hr2 : exists b, r2 = Ret b).
  { injection Hc as -> _. eauto. }
  destruct Hr2 as [b2 ->].
  destruct b2.
  2:{ exists (o1 ++ o2)%list. cbn [snd]. rewrite H2, H1.
      rewrite <- app_assoc. reflexivity. }
  destruct (validate_tflite_stdout libs (output args) s2) as [o3 H3].
  destruct (validate_tflite_total libs (output args) s2) as (b3 & s3' & Hv).
  rewrite Hv in H3. cbn [snd] in H3. rewrite Hv.
  destruct b3.
  2:{ eexists. cbn [snd]. rewrite H3, H2, H1.
      rewrite <- !app_assoc. simpl. reflexivity. }
  destruct (finish_output args s3') as (fs' & out & t & Hfin & _).
  rewrite Hfin. eexists. cbn [snd st_stdout]. rewrite H3, H2, H1.
  rewrite <- !app_assoc. simpl. reflexivity.
Qed.

Lemma run_output_opens_with_banner_witness :
  exists rest,
    st_stdout (snd (run Demo.libs_export_fails Demo.args_plain Demo.fs0)) =
      (banner ++ (nl ++ "[1/3] Exporting best.pt to ONNX...")%string :: rest)%list.
Proof.
  apply (run_output_opens_with_banner Demo.libs_export_fails Demo.args_plain Demo.fs0).
  vm_compute. reflexivity.
Defined.

(** ** The installer, case by case *)

(** X12.  The installer raises nothing and answers with a boolean; the answer
    is true exactly when the [mkdir] of the assets directory and the copy
    that follows both return. *)
Theorem installer_answers_true_iff tflite proj st :
  (exists b st', copy_to_android_assets tflite proj st = (Ret b, st')) /\
  (fst (copy_to_android_assets tflite proj st) = Ret true <->
   exists fs1 dst fs2,
     path_mkdir true true (assets_dir_of proj) (st_fs st) = (Ok tt, fs1) /\
     shutil_copy tflite (target_path_of proj) fs1 = (Ok dst, fs2)).
Proof.
  destruct (path_mkdir true true (assets_dir_of proj) (st_fs st)) as [[[]|e] fs1] eqn:Hmk.
  - destruct (shutil_copy tflite (target_path_of proj) fs1) as [[dst|e] fs2] eqn:Hcp.
    + rewrite (installer_succeeds tflite proj st fs1 dst fs2 Hmk Hcp).
      split; [eauto|]. split; [|reflexivity].
      intros _. exists fs1, dst, fs2. now rewrite Hcp.
    + rewrite (installer_copy_fails tflite proj st fs1 e fs2 Hmk Hcp).
      split; [eauto|]. split; [discriminate|].
      intros (fs1' & dst & fs2' & H1 & H2). injection H1 as <-.
      rewrite Hcp in H2. discriminate.
  - rewrite (installer_mkdir_fails tflite proj st e fs1 Hmk).
    split; [eauto|]. split; [discriminate|].
    intros (fs1' & dst & fs2' & H1 & _). discriminate.
Qed.

Lemma installer_answers_true_iff_witness :
  exists fs1 dst fs2,
    path_mkdir true true (assets_dir_of "proj") Demo.fs_converted = (Ok tt, fs1) /\
    shutil_copy "model.tflite" (target_path_of "proj") fs1 = (Ok dst, fs2).
Proof.
  apply (installer_answers_true_iff "model.tflite" "proj" (initial_state Demo.fs_converted)).
  vm_compute. reflexivity.
Defined.

(** X13.  Nothing is undone when the copy fails: if the [mkdir] of the assets
    directory returns and the copy raises, the installer prints the failure
    line and answers false, the copy has changed nothing, and the assets
    directory stays in place, directories made on the way included. *)
Theorem installer_failed_copy_keeps_directories tflite proj st fs1 e fs2 :
  path_mkdir true true (assets_dir_of proj) (st_fs st) = (Ok tt, fs1) ->
  shutil_copy tflite (target_path_of proj) fs1 = (Err e, fs2) ->
  copy_to_android_assets tflite proj st =
    (Ret false,
     {| st_fs := fs1;
        st_stdout := (st_stdout st ++
                      [("✗ Failed to copy to Android assets: " ++ exc_msg e)%string])%list;
        st_trace := (st_trace st ++ installer_calls tflite proj)%list |}) /\
  is_dir fs1 (assets_dir_of proj) = true.
Proof.
  intros Hmk Hcp. split.
  - rewrite (installer_copy_fails tflite proj st fs1 e fs2 Hmk Hcp).
    now rewrite (shutil_copy_err_unchanged _ _ _ _ _ Hcp).
  - eapply path_mkdir_ok_is_dir; eauto.
Qed.

Lemma installer_failed_copy_keeps_directories_witness :
  is_dir Demo.fs0 (assets_dir_of "proj") = false /\
  fst (copy_to_android_assets "model.tflite" "proj" (initial_state Demo.fs0)) = Ret false /\
  is_dir (st_fs (snd (copy_to_android_assets "model.tflite" "proj"
                        (initial_state Demo.fs0))))
         (assets_dir_of "proj") = true.
Proof.
  split; [vm_compute; reflexivity|].
  destruct (installer_failed_copy_keeps_directories "model.tflite" "proj"
              (initial_state Demo.fs0)
              (snd (path_mkdir true true (assets_dir_of "proj") Demo.fs0))
              (OSError ENOENT "model.tflite")
              (snd (path_mkdir true true (assets_dir_of "proj") Demo.fs0)))
    as (Hres & Hdir).
  - vm_compute; reflexivity.
  - vm_compute; reflexivity.
  - rewrite Hres. split; [reflexivity | exact Hdir].
Defined.

(** X14.  A project path that names a regular file: on a tree-shaped file
    system the [mkdir] of the assets directory below it raises
    [NotADirectoryError]; the installer prints it, answers false, attempts no
    copy and leaves the file system as it was. *)
Theorem installer_blocked_by_file tflite proj st c :
  fs_wf (st_fs st) = true ->
  fs_lookup (st_fs st) (Path proj) = Some (File c) ->
  copy_to_android_assets tflite proj st =
    (Ret false,
     {| st_fs := st_fs st;
        st_stdout := (st_stdout st ++
                      [("✗ Failed to copy to Android assets: "
                          ++ exc_msg (OSError ENOTDIR (path_str (assets_dir_of proj))))
                       %string])%list;
        st_trace := (st_trace st ++ [EvMkdir (assets_dir_of proj) true true])%list |}).
Proof.
  intros Hwf Hfile. apply installer_mkdir_fails.
  unfold path_mkdir. rewrite assets_dir_of_shape at 1 2. cbn [anchor parts].
  rewrite rev_app_distr.
  rewrite (mkdir_parents_below_file (st_fs st) (anchor (Path proj))
             (rev (parts (Path proj))) c).
  - reflexivity.
  - exact Hwf.
  - rewrite rev_involutive. exact Hfile.
  - simpl. discriminate.
Qed.

Lemma installer_blocked_by_file_witness :
  copy_to_android_assets "model.tflite" "best.pt" (initial_state Demo.fs_converted) =
    (Ret false,
     {| st_fs := Demo.fs_converted;
        st_stdout := ["✗ Failed to copy to Android assets: [Errno 20] Not a directory: 'best.pt/app/src/main/assets'"];
        st_trace := [EvMkdir (assets_dir_of "best.pt") true true] |}).
Proof.
  rewrite (installer_blocked_by_file "model.tflite" "best.pt"
             (initial_state Demo.fs_converted) "weights").
  - reflexivity.
  - vm_compute; reflexivity.
  - vm_compute; reflexivity.
Defined.

(** X15.  When the output path is itself
    [<project>/app/src/main/assets/yolo_plate_detector.tflite] and the file is
    there, the copy is refused ([SameFileError]): the installer prints the
    failure line and answers false, and the file system is unchanged. *)
Theorem installer_same_file_refused tflite proj st c :
  fs_wf (st_fs st) = true ->
  fs_lookup (st_fs st) (target_path_of proj) = Some (File c) ->
  Path tflite = target_path_of proj ->
  exists e,
    exc_class e = "SameFileError" /\
    copy_to_android_assets tflite proj st =
      (Ret false,
       {| st_fs := st_fs st;
          st_stdout := (st_stdout st ++
                        [("✗ Failed to copy to Android assets: " ++ exc_msg e)%string])%list;
          st_trace := (st_trace st ++ installer_calls tflite proj)%list |}).
Proof.
  intros Hwf Hold Hsame.
  assert (Hdir : is_dir (st_fs st) (assets_dir_of proj) = true).
  { rewrite <- target_parent. eapply fs_wf_parent; eauto. }
  assert (Hsrc : fs_stat tflite (st_fs st) = Some (File c)).
  { unfold fs_stat. destruct tflite as [|a s].
    - exfalso. apply (target_parts_nonempty proj). rewrite <- Hsame. reflexivity.
    - rewrite Hsame. exact Hold. }
  exists (SameFileError tflite (path_str (target_path_of proj))).
  split; [reflexivity|].
  apply (installer_copy_fails tflite proj st (st_fs st)).
  - now apply mkdir_existing.
  - unfold shutil_copy.
    assert (Hnd : is_dir (st_fs st) (target_path_of proj) = false).
    { unfold is_dir. now rewrite Hold. }
    rewrite Hnd, Hsrc, Hold.
    rewrite bool_decide_eq_true_2 by exact Hsame. reflexivity.
Qed.

Lemma installer_same_file_refused_witness :
  fst (copy_to_android_assets "proj/app/src/main/assets/yolo_plate_detector.tflite" "proj"
         (initial_state Demo.fs_installed)) = Ret false /\
  st_fs (snd (copy_to_android_assets
                "proj/app/src/main/assets/yolo_plate_detector.tflite" "proj"
                (initial_state Demo.fs_installed))) = Demo.fs_installed.
Proof.
  destruct (installer_same_file_refused
              "proj/app/src/main/assets/yolo_plate_detector.tflite" "proj"
              (initial_state Demo.fs_installed) "old model")
    as (e & _ & Hres).
  - vm_compute; reflexivity.
  - vm_compute; reflexivity.
  - vm_compute; reflexivity.
  - rewrite Hres. split; reflexivity.
Defined.

(** X16.  Running the installer again changes nothing: when in a first call
    the [mkdir] and the copy both return, the installer answers true; in a
    second call on the state it left the [mkdir] returns with the file system
    as it is, and if the copy returns as well, it went to the same
    destination, the installer answers true again, and the file system is
    exactly as the first call left it. *)
Theorem installer_idempotent tflite proj st fs1 dst fs2 :
  path_mkdir true true (assets_dir_of proj) (st_fs st) = (Ok tt, fs1) ->
  shutil_copy tflite (target_path_of proj) fs1 = (Ok dst, fs2) ->
  let st1 := snd (copy_to_android_assets tflite proj st) in
  fst (copy_to_android_assets tflite proj st) = Ret true /\
  st_fs st1 = fs2 /\
  path_mkdir true true (assets_dir_of proj) fs2 = (Ok tt, fs2) /\
  (forall dst' fs3,
      shutil_copy tflite (target_path_of proj) fs2 = (Ok dst', fs3) ->
      dst' = dst /\ fs3 = fs2 /\
      fst (copy_to_android_assets tflite proj st1) = Ret true /\
      st_fs (snd (copy_to_android_assets tflite proj st1)) = fs2).
Proof.
  intros Hmk Hcp.
  rewrite (installer_succeeds tflite proj st fs1 dst fs2 Hmk Hcp). cbn [fst snd].
  set (st1 := {| st_fs := fs2; st_stdout := _; st_trace := _ |}).
  split; [reflexivity|]. split; [reflexivity|].
  pose proof (path_mkdir_ok_is_dir _ _ _ _ Hmk) as Hdir1.
  destruct (shutil_copy_ok_inv _ _ _ _ _ Hcp) as (_ & _ & Hnd & _ & c & _ & Hfs2).
  assert (Hdir2 : is_dir fs2 (assets_dir_of proj) = true).
  { rewrite Hfs2. unfold is_dir. rewrite fs_lookup_insert_ne; [exact Hdir1|].
    intros Heq. apply Hnd. rewrite Heq. unfold is_dir in Hdir1.
    destruct (fs_lookup fs1 (assets_dir_of proj)) as [[|]|]; congruence. }
  pose proof (mkdir_existing _ _ Hdir2) as Hmk2.
  split; [exact Hmk2|].
  intros dst' fs3 Hcp2.
  pose proof (shutil_copy_again _ _ _ _ _ Hcp) as Hagain.
  rewrite Hagain in Hcp2. injection Hcp2 as <- <-.
  split; [reflexivity|]. split; [reflexivity|].
  rewrite (installer_succeeds tflite proj st1 fs2 dst fs2 Hmk2 Hagain).
  split; reflexivity.
Qed.

Lemma installer_idempotent_witness :
  st_fs (snd (copy_to_android_assets "model.tflite" "proj"
                (snd (copy_to_android_assets "model.tflite" "proj"
                        (initial_state Demo.fs_converted))))) =
  st_fs (snd (copy_to_android_assets "model.tflite" "proj"
                (initial_state Demo.fs_converted))).
Proof.
  destruct (installer_idempotent "model.tflite" "proj"
              (initial_state Demo.fs_converted)
              (snd (path_mkdir true true (assets_dir_of "proj") Demo.fs_converted))
              (target_path_of "proj")
              (fs_insert (target_path_of "proj") (File "tflite model")
                 (snd (path_mkdir true true (assets_dir_of "proj") Demo.fs_converted))))
    as (_ & Hfirst & _ & Hsecond).
  - vm_compute; reflexivity.
  - vm_compute; reflexivity.
  - destruct (Hsecond (target_path_of "proj")
                      (fs_insert (target_path_of "proj") (File "tflite model")
                         (snd (path_mkdir true true (assets_dir_of "proj")
                                 Demo.fs_converted))))
      as (_ & _ & _ & Hsame).
    + vm_compute; reflexivity.
    + rewrite Hsame, Hfirst. reflexivity.
Defined.

(** X17.  On a file system mounted read-only the installer cannot succeed:
    whatever is there, it answers false with one line printed, and the file
    system is untouched. *)
Theorem installer_fails_on_read_only tflite proj st :
  read_only (st_fs st) = true ->
  exists line t,
    copy_to_android_assets tflite proj st =
      (Ret false,
       {| st_fs := st_fs st;
          st_stdout := (st_stdout st ++ [line])%list;
          st_trace := (st_trace st ++ t)%list |}) /\
    t `prefix_of` installer_calls tflite proj.
Proof.
  intros Hro.
  assert (Hfs : snd (path_mkdir true true (assets_dir_of proj) (st_fs st)) = st_fs st).
  { unfold path_mkdir.
    pose proof (mkdir_parents_read_only true (anchor (assets_dir_of proj))
                  (rev (parts (assets_dir_of proj))) (st_fs st) Hro) as H.
    destruct (mkdir_parents true _ _ (st_fs st)) as [[e|] fs1]; simpl in *; now subst. }
  destruct (path_mkdir true true (assets_dir_of proj) (st_fs st)) as [[[]|e] fs1] eqn:Hmk;
    simpl in Hfs; subst fs1.
  - destruct (shutil_copy_read_only tflite (target_path_of proj) (st_fs st) Hro)
      as [e Hcp].
    rewrite (installer_copy_fails tflite proj st _ e _ Hmk Hcp).
    eexists _, _. split; [reflexivity|]. reflexivity.
  - rewrite (installer_mkdir_fails tflite proj st e _ Hmk).
    eexists _, _. split; [reflexivity|].
    now exists [EvCopy tflite (target_path_of proj)].
Qed.

Lemma installer_fails_on_read_only_witness :
  fst (copy_to_android_assets "model.tflite" "proj" (initial_state Demo.fs_read_only))
    = Ret false.
Proof.
  destruct (installer_fails_on_read_only "model.tflite" "proj"
              (initial_state Demo.fs_read_only))
    as (line & t & Hres & _).
  - reflexivity.
  - rewrite Hres. reflexivity.
Defined.

(** ** The success paths of the exporter and the converter *)

(** X18.  When the import, [YOLO(weights_path)] and [model.export] all
    return, the exporter makes exactly these three calls, prints its
    announcement and the completion line with the path [model.export]
    returned, returns that path, and leaves the file system as the export
    left it. *)
Theorem export_success_report libs w d st YOLO model fs1 onnx_path fs2 :
  ultralytics_YOLO libs = Ok YOLO ->
  YOLO w (st_fs st) = (Ok model, fs1) ->
  yolo_export model "onnx" 640 fs1 = (Ok onnx_path, fs2) ->
  export_to_onnx libs w d st =
    (Ret onnx_path,
     {| st_fs := fs2;
        st_stdout := (st_stdout st ++
                      [(nl ++ "[1/3] Exporting " ++ w ++ " to ONNX...")%string;
                       ("✓ ONNX export complete: " ++ onnx_path)%string])%list;
        st_trace := (st_trace st ++
                     [EvImport "ultralytics"; EvYOLO w; EvExport "onnx" 640])%list |}).
Proof.
  intros Hi Hl Hx.
  unfold export_to_onnx. destruct st as [fs out tr]; simpl in *.
  unmonad. rewrite Hi; simpl. rewrite Hl; simpl. rewrite Hx; simpl.
  now rewrite <- !app_assoc.
Qed.

Lemma export_success_report_witness :
  export_to_onnx Demo.libs "best.pt" EmptyString (initial_state Demo.fs0) =
    (Ret "best.onnx",
     {| st_fs := fs_insert (Path "best.onnx") (File "onnx graph") Demo.fs0;
        st_stdout := [(nl ++ "[1/3] Exporting best.pt to ONNX...")%string;
                      "✓ ONNX export complete: best.onnx"];
        st_trace := [EvImport "ultralytics"; EvYOLO "best.pt"; EvExport "onnx" 640] |}).
Proof.
  apply (export_success_report Demo.libs "best.pt" EmptyString (initial_state Demo.fs0)
           (fun _ fs => (Ok Demo.model, fs)) Demo.model Demo.fs0 "best.onnx"
           (fs_insert (Path "best.onnx") (File "onnx graph") Demo.fs0));
    reflexivity.
Defined.

(** X19.  When the conversion tool exits with status zero and the output path
    can be sized, the converter tests the path once, sizes it once, prints
    the completion line with the size in mebibytes to two decimals, and
    answers true; the file system is the one the tool left. *)
Theorem convert_success_report libs onnx tflite st result fs' size :
  subprocess_run libs (tf2onnx_cmd onnx tflite) (st_fs st) = (Ok result, fs') ->
  returncode result = 0 ->
  os_path_getsize tflite fs' = Ok size ->
  convert_to_tflite libs onnx tflite st =
    (Ret true,
     {| st_fs := fs';
        st_stdout := (st_stdout st ++
                      [(nl ++ "[2/3] Converting ONNX to TensorFlow Lite...")%string;
                       ("✓ TFLite conversion complete: " ++ tflite
                          ++ " (" ++ format_mb size ++ " MB)")%string])%list;
        st_trace := (st_trace st ++ converter_calls onnx tflite)%list |}).
Proof.
  intros Hrun Hrc Hsize.
  assert (Hex : os_path_exists tflite fs' = true).
  { unfold os_path_exists. unfold os_path_getsize in Hsize.
    destruct (fs_stat tflite fs') as [n|]; [reflexivity|discriminate]. }
  unfold convert_to_tflite, converter_calls. destruct st as [fs out0 tr]; simpl in *.
  unmonad. rewrite Hrun; simpl. rewrite Hrc; simpl. rewrite Hex; simpl.
  rewrite Hsize; simpl. now rewrite <- !app_assoc.
Qed.

Lemma convert_success_report_witness :
  st_stdout (snd (convert_to_tflite Demo.libs "best.onnx" "model.tflite"
                    (initial_state Demo.fs0))) =
    [(nl ++ "[2/3] Converting ONNX to TensorFlow Lite...")%string;
     "✓ TFLite conversion complete: model.tflite (0.00 MB)"].
Proof.
  rewrite (convert_success_report Demo.libs "best.onnx" "model.tflite"
             (initial_state Demo.fs0) (mkCompleted 0 "done" EmptyString)
             Demo.fs_converted 12).
  - reflexivity.
  - reflexivity.
  - reflexivity.
  - reflexivity.
Defined.

(** X20.  The size shown by the converter: a whole number [n] of mebibytes is
    printed as [n.00], and any size up to 5242 bytes, that of an empty file
    included, is printed as [0.00]. *)
Theorem format_mb_edges :
  (forall n, 0 <= n -> format_mb (n * 1048576) = (pretty n ++ ".00")%string) /\
  (forall size, 0 <= size <= 5242 -> format_mb size = "0.00").
Proof.
  split.
  - intros n Hn. unfold format_mb, hundredths_mb.
    replace (n * 1048576 * 100) with (n * 100 * 1048576) by lia.
    rewrite Z.div_mul, Z.mod_mul by lia. simpl.
    rewrite Z.div_mul, Z.mod_mul by lia. reflexivity.
  - intros size Hs. unfold format_mb, hundredths_mb.
    rewrite (Z.div_small (size * 100) 1048576), (Z.mod_small (size * 100) 1048576) by lia.
    assert (H1 : (524288 <? size * 100) = false) by (apply Z.ltb_ge; lia).
    assert (H2 : (size * 100 =? 524288) = false) by (apply Z.eqb_neq; lia).
    rewrite H1, H2. reflexivity.
Qed.

Lemma format_mb_edges_witness :
  format_mb (6 * 1048576) = "6.00" /\ format_mb 5242 = "0.00".
Proof.
  destruct format_mb_edges as [Hwhole Hsmall].
  split.
  - rewrite (Hwhole 6) by lia. reflexivity.
  - apply (Hsmall 5242). lia.
Defined.
